(** * foodpicker: a shallow embedding of [app/app.py]

    The program is a linear pipeline: pick a cuisine, compute next Monday,
    read the history log, search places, filter and pick one, append a log
    row, create a calendar event.  Python values are embedded as the type
    [value]; a dict is a finite map from strings to values; an exception
    is an explicit alternative of the [result] type. *)

From Stdlib Require Import ZArith QArith Floats.SpecFloat.
From stdpp Require Import gmap strings list fin_maps pretty.

Set Warnings "-register-all".

Open Scope Z_scope.

(** ** Python values *)

(** JSON-shaped Python values.  A [float] is an IEEE binary64 number in the
    representation of the Standard Library's specification of floats. *)
Inductive value : Type :=
  | VNone
  | VBool (b : bool)
  | VInt (z : Z)
  | VFloat (f : spec_float)
  | VStr (s : string)
  | VList (l : list value)
  | VDict (d : gmap string value).

(** A [dict] with string keys; a place of the search API is one. *)
Abbreviation dict := (gmap string value).

(** ** Exceptions *)

(** The exception classes that occur.  Every class is a subclass of
    Python's [Exception]; [HTTPError] is [requests.HTTPError]. *)
Inductive exn : Type :=
  | HTTPError (msg : string)
  | TypeError (msg : string)
  | AttributeError (msg : string)
  | IndexError (msg : string)
  | ValueError (msg : string)
  | OverflowError (msg : string)
  | OtherException (cls msg : string).

(** [str(exc)] *)
Definition exn_str (e : exn) : string :=
  match e with
  | HTTPError m | TypeError m | AttributeError m | IndexError m
  | ValueError m | OverflowError m | OtherException _ m => m
  end.

Definition is_http_error (e : exn) : bool :=
  match e with HTTPError _ => true | _ => false end.

Inductive result (A : Type) : Type :=
  | Ok (a : A)
  | Raise (e : exn).
Arguments Ok {A} a.
Arguments Raise {A} e.

#[global] Instance result_ret : MRet result := fun A a => Ok a.
#[global] Instance result_bind : MBind result := fun A B f m =>
  match m with Ok a => f a | Raise e => Raise e end.

(** ** Primitive operations of the language *)

(** [type(v).__name__] *)
Definition type_name (v : value) : string :=
  match v with
  | VNone => "NoneType"
  | VBool _ => "bool"
  | VInt _ => "int"
  | VFloat _ => "float"
  | VStr _ => "str"
  | VList _ => "list"
  | VDict _ => "dict"
  end.

(** Truth value testing ([bool(v)], [not v], [if v]). *)
Definition truthy (v : value) : bool :=
  match v with
  | VNone => false
  | VBool b => b
  | VInt z => negb (z =? 0)
  | VFloat (S754_zero _) => false
  | VFloat _ => true
  | VStr s => negb (String.eqb s "")
  | VList l => match l with [] => false | _ => true end
  | VDict d => negb (bool_decide (d = ∅))
  end.

(** [d.get(key, default)] *)
Definition dict_get (d : dict) (key : string) (default : value) : value :=
  match d !! key with
  | Some v => v
  | None => default
  end.

(** [v in s] for a set [s] of strings.  A list or a dict cannot be hashed;
    any other value that is not a string equals no member of [s]. *)
Definition py_in (v : value) (s : gset string) : result bool :=
  match v with
  | VStr x => Ok (bool_decide (x ∈ s))
  | VList _ | VDict _ =>
      Raise (TypeError ("unhashable type: '" +:+ type_name v +:+ "'"))
  | _ => Ok false
  end.

(** *** Numbers and their order *)

(** The numeric constants of the program are an [int] or a [float]. *)
Inductive num : Type :=
  | NInt (z : Z)
  | NFloat (f : spec_float).

Definition num_value (n : num) : value :=
  match n with NInt z => VInt z | NFloat f => VFloat f end.

(** The numbers among the values; [bool] is a subclass of [int]. *)
Definition as_num (v : value) : option num :=
  match v with
  | VBool b => Some (NInt (Z.b2z b))
  | VInt z => Some (NInt z)
  | VFloat f => Some (NFloat f)
  | _ => None
  end.

(** The rational number a finite float [(-1)^s * m * 2^e] denotes. *)
Definition finite_Q (s : bool) (m : positive) (e : Z) : Q :=
  let sm := if s then Z.neg m else Z.pos m in
  match e with
  | Z.neg k => sm # (2 ^ k)%positive
  | _ => inject_Z (sm * 2 ^ e)
  end.

(** Python compares an [int] with a [float] by their exact values. *)
Definition compare_Z_float (z : Z) (f : spec_float) : option comparison :=
  match f with
  | S754_nan => None
  | S754_infinity s => Some (if s then Gt else Lt)
  | S754_zero _ => Some (z ?= 0)
  | S754_finite s m e => Some (inject_Z z ?= finite_Q s m e)%Q
  end.

Definition num_compare (a b : num) : option comparison :=
  match a, b with
  | NInt x, NInt y => Some (x ?= y)
  | NFloat f, NFloat g => SFcompare f g
  | NInt x, NFloat g => compare_Z_float x g
  | NFloat f, NInt y => CompOpp <$> compare_Z_float y f
  end.

Definition num_ltb (a b : num) : bool :=
  match num_compare a b with Some Lt => true | _ => false end.

(** [v < c] for a numeric constant [c]: defined on numbers, a [TypeError]
    on every other left operand. *)
Definition py_lt (v : value) (c : num) : result bool :=
  match as_num v with
  | Some a => Ok (num_ltb a c)
  | None =>
      Raise (TypeError ("'<' not supported between instances of '"
                        +:+ type_name v +:+ "' and '"
                        +:+ type_name (num_value c) +:+ "'"))
  end.

(** ** Constants of the program *)

(** [4.2] as Python reads it: the binary64 number nearest to 42/10,
    [4728779608739021 * 2^-50]. *)
Definition MIN_RATING : num := NFloat (S754_finite false 4728779608739021 (-50)).
Definition MIN_REVIEWS : num := NInt 200.

Definition CUISINES : list string :=
  [ "Mexican"; "Seafood"; "Japanese"; "Korean"; "Chinese"; "Vietnamese";
    "Thai"; "Filipino"; "Italian"; "Greek"; "Turkish"; "Iranian";
    "Lebanese"; "Indian"; "Ethiopian"; "Peruvian"; "Hawaiian"; "Barbeque";
    "Spanish"; "Brazilian" ].

(** ** [random.choice] *)

(** [random.choice(seq)] is [seq[randbelow(len(seq))]]; the generator's
    draw is the parameter [randbelow]. *)
Definition random_choice {A : Type} (randbelow : nat → nat) (seq : list A) : result A :=
  match seq with
  | [] => Raise (IndexError "Cannot choose from an empty sequence")
  | _ =>
      match seq !! randbelow (length seq) with
      | Some x => Ok x
      | None => Raise (IndexError "list index out of range")
      end
  end.

(** ** [choose_place] *)

(** One turn of the loop of [choose_place]: [false] where the body reaches
    a [continue], [true] where it reaches [eligible.append(place)]. *)
Definition choose_place_keeps (history_ids : gset string) (place : dict) : result bool :=
  let place_id := dict_get place "id" VNone in
  let rating := dict_get place "rating" (VInt 0) in
  let reviews := dict_get place "userRatingCount" (VInt 0) in
  seen ← (if negb (truthy place_id) then Ok true else py_in place_id history_ids);
  if (seen : bool) then Ok false else
  low ← (low_rating ← py_lt rating MIN_RATING;
         if (low_rating : bool) then Ok true else py_lt reviews MIN_REVIEWS);
  if (low : bool) then Ok false else Ok true.

(** The loop of [choose_place], threading the list [eligible]. *)
Fixpoint choose_place_loop (history_ids : gset string) (places : list dict)
    (eligible : list dict) : result (list dict) :=
  match places with
  | [] => Ok eligible
  | place :: rest =>
      keep ← choose_place_keeps history_ids place;
      choose_place_loop history_ids rest
        (if (keep : bool) then eligible ++ [place] else eligible)
  end.

(** The value of [eligible] when the loop is left. *)
Definition eligible_places (places : list dict) (history_ids : gset string)
    : result (list dict) :=
  choose_place_loop history_ids places [].

(** [choose_place(places, history_ids)]; [None] is Python's [None]. *)
Definition choose_place (randbelow : nat → nat) (places : list dict)
    (history_ids : gset string) : result (option dict) :=
  eligible ← eligible_places places history_ids;
  match eligible with
  | [] => Ok None
  | _ => chosen ← random_choice randbelow eligible; Ok (Some chosen)
  end.

(** ** [get_place_name] *)

(** [place.get("displayName", {}).get("text", "Unknown Restaurant")]: the
    second [get] exists on a dict only. *)
Definition get_place_name (place : dict) : result value :=
  match dict_get place "displayName" (VDict ∅) with
  | VDict d => Ok (dict_get d "text" (VStr "Unknown Restaurant"))
  | v => Raise (AttributeError ("'" +:+ type_name v +:+ "' object has no attribute 'get'"))
  end.

(** ** Dates and times *)

(** A [datetime.date], held as its proleptic Gregorian ordinal
    ([date.toordinal()]): day 1 is 0001-01-01. *)
Record date : Type := Date { toordinal : Z }.

(** [date.max.toordinal()], the ordinal of 9999-12-31. *)
Definition MAXORDINAL : Z := 3652059.

Definition valid_date (d : date) : bool :=
  (1 <=? toordinal d) && (toordinal d <=? MAXORDINAL).

(** [date.weekday()]: Monday is 0, Sunday is 6. *)
Definition weekday (d : date) : Z := (toordinal d + 6) mod 7.

(** [d + timedelta(days=days)] *)
Definition date_add_days (d : date) (days : Z) : result date :=
  let o := toordinal d + days in
  if (0 <? o) && (o <=? MAXORDINAL) then Ok (Date o)
  else Raise (OverflowError "date value out of range").

(** [get_next_monday_date()]; [today] is [datetime.now(TIMEZONE).date()]. *)
Definition get_next_monday_date (today : date) : result date :=
  let days_ahead := (0 - weekday today) mod 7 in
  let days_ahead := if days_ahead =? 0 then 7 else days_ahead in
  date_add_days today days_ahead.

(** The calendar algorithm of the [datetime] module: ordinal to
    (year, month, day). *)
Definition DAYS_IN_MONTH : list Z := [-1; 31; 28; 31; 30; 31; 30; 31; 31; 30; 31; 30; 31].
Definition DAYS_BEFORE_MONTH : list Z :=
  [-1; 0; 31; 59; 90; 120; 151; 181; 212; 243; 273; 304; 334].

Definition ord2ymd (n : Z) : Z * Z * Z :=
  let n := n - 1 in
  let n400 := n / 146097 in let n := n mod 146097 in
  let year := n400 * 400 + 1 in
  let n100 := n / 36524 in let n := n mod 36524 in
  let n4 := n / 1461 in let n := n mod 1461 in
  let n1 := n / 365 in let n := n mod 365 in
  let year := year + n100 * 100 + n4 * 4 + n1 in
  if (n1 =? 4) || (n100 =? 4) then (year - 1, 12, 31)
  else
    let leapyear := (n1 =? 3) && (negb (n4 =? 24) || (n100 =? 3)) in
    let month := Z.shiftr (n + 50) 5 in
    let preceding :=
      DAYS_BEFORE_MONTH !!! Z.to_nat month + Z.b2z ((2 <? month) && leapyear) in
    if n <? preceding then
      let month := month - 1 in
      let preceding :=
        preceding - (DAYS_IN_MONTH !!! Z.to_nat month
                     + Z.b2z ((month =? 2) && leapyear)) in
      (year, month, n - preceding + 1)
    else (year, month, n - preceding + 1).

(** ["%0<width>d" % z] for a number that is not negative. *)
Definition zero_pad (width : nat) (z : Z) : string :=
  let digits := pretty z in
  String.concat "" (replicate (width - String.length digits) "0") +:+ digits.

(** [date.isoformat()]: [YYYY-MM-DD]. *)
Definition date_isoformat (d : date) : string :=
  let '(y, m, dd) := ord2ymd (toordinal d) in
  zero_pad 4 y +:+ "-" +:+ zero_pad 2 m +:+ "-" +:+ zero_pad 2 dd.

(** A [datetime.datetime] in the zone [TIMEZONE]. *)
Record datetime : Type := DateTime {
  dt_date : date;
  dt_hour : Z;
  dt_minute : Z;
  dt_second : Z;
  dt_microsecond : Z
}.

Definition TIMEZONE_key : string := "America/Los_Angeles".

(** [datetime.combine(d, time(hour, minute), tzinfo=TIMEZONE)] *)
Definition datetime_combine (d : date) (hour minute : Z) : datetime :=
  DateTime d hour minute 0 0.

(** The time of day of [isoformat]; microseconds are left out when zero. *)
Definition format_time (hh mm ss us : Z) : string :=
  zero_pad 2 hh +:+ ":" +:+ zero_pad 2 mm +:+ ":" +:+ zero_pad 2 ss
  +:+ (if us =? 0 then "" else "." +:+ zero_pad 6 us).

(** The UTC offset of [isoformat], from the offset in seconds. *)
Definition format_offset (off : Z) : string :=
  let sign := if off <? 0 then "-" else "+" in
  let off := Z.abs off in
  let hh := off / 3600 in
  let mm := (off mod 3600) / 60 in
  let ss := off mod 60 in
  sign +:+ zero_pad 2 hh +:+ ":" +:+ zero_pad 2 mm
  +:+ (if ss =? 0 then "" else ":" +:+ zero_pad 2 ss).

(** ** What the run-time system and the libraries provide *)

(** The parts of Python's run-time system that are taken as given: the
    text of a float and of a container, the UTC offset (in seconds) of
    the zone [TIMEZONE] at a local time, and [json.loads]. *)
Record runtime : Type := Runtime {
  float_repr : spec_float → string;
  container_repr : value → string;
  utcoffset : datetime → Z;
  json_loads : string → result value
}.

(** [str(v)], which is also how an f-string renders [v]. *)
Definition py_str (rt : runtime) (v : value) : string :=
  match v with
  | VNone => "None"
  | VBool true => "True"
  | VBool false => "False"
  | VInt z => pretty z
  | VFloat f => float_repr rt f
  | VStr s => s
  | VList _ | VDict _ => container_repr rt v
  end.

(** [datetime.isoformat()] of a datetime in the zone [TIMEZONE]. *)
Definition datetime_isoformat (rt : runtime) (dt : datetime) : string :=
  date_isoformat (dt_date dt) +:+ "T"
  +:+ format_time (dt_hour dt) (dt_minute dt) (dt_second dt) (dt_microsecond dt)
  +:+ format_offset (utcoffset rt dt).

(** ** The history log *)

(** The rows of a [pandas.DataFrame] built from rows of strings; a cell a
    short row lacks is null ([None]). *)
Record DataFrame : Type := Frame {
  df_columns : list string;
  df_data : list (list (option string))
}.

(** A row widened to [width] cells with nulls. *)
Definition pad_row (width : nat) (row : list string) : list (option string) :=
  (Some <$> row) ++ replicate (width - length row) None.

(** [pd.DataFrame(data, columns=columns)] for a list of rows.  Without
    rows the frame has the given columns; otherwise the widest row
    gives the number of columns, which [columns] has to match. *)
Definition pd_DataFrame (data : list (list string)) (columns : list string)
    : result DataFrame :=
  match data with
  | [] => Ok (Frame columns [])
  | _ =>
      let width := max_list (length <$> data) in
      if bool_decide (length columns = width)
      then Ok (Frame columns (pad_row width <$> data))
      else Raise (ValueError (pretty (length columns)
                              +:+ " columns passed, passed data had "
                              +:+ pretty width +:+ " columns"))
  end.

(** The positions at which [key] labels a column. *)
Fixpoint label_positions (key : string) (columns : list string) (i : nat) : list nat :=
  match columns with
  | [] => []
  | c :: rest =>
      (if bool_decide (c = key) then [i] else []) ++ label_positions key rest (S i)
  end.

(** What [df[key]] selects: one column (a [Series]) when the label is
    unique, the frame of the columns so labelled when it is not. *)
Inductive selection : Type :=
  | Series (cells : list (option string))
  | SubFrame (df : DataFrame).

Definition cell_at (row : list (option string)) (i : nat) : option string :=
  mjoin (row !! i).

Definition df_getitem (df : DataFrame) (key : string) : result selection :=
  match label_positions key (df_columns df) 0 with
  | [] => Raise (OtherException "KeyError" key)
  | [i] => Ok (Series ((λ row, cell_at row i) <$> df_data df))
  | positions =>
      Ok (SubFrame (Frame ((λ _, key) <$> positions)
                      ((λ row, cell_at row <$> positions) <$> df_data df)))
  end.

(** [.dropna()]: a series loses its null cells, a frame its rows that
    have a null cell. *)
Definition dropna (sel : selection) : selection :=
  match sel with
  | Series cells => Series (filter (λ c, is_Some c) cells)
  | SubFrame df =>
      SubFrame (Frame (df_columns df)
                  (filter (λ row, Forall (λ c, is_Some c) row) (df_data df)))
  end.

(** [.astype(str)]: the cells are strings already. *)
Definition astype_str (sel : selection) : selection := sel.

(** [set(...)]: iterating a series gives its values, iterating a frame
    gives its column labels. *)
Definition py_set (sel : selection) : gset string :=
  match sel with
  | Series cells => list_to_set (omap id cells)
  | SubFrame df => list_to_set (df_columns df)
  end.

Definition HISTORY_ID_COLUMN : string := "Google Place ID".

(** [fetch_history_place_ids]; [values] is [response.get("values")] of the
    sheet read, absent when the sheet is empty. *)
Definition fetch_history_place_ids (values : option (list (list string)))
    : result (gset string) :=
  let rows := default [] values in
  match rows with
  | [] => Ok ∅
  | header :: data =>
      df ← pd_DataFrame data header;
      if negb (bool_decide (HISTORY_ID_COLUMN ∈ df_columns df)) then Ok ∅
      else
        column ← df_getitem df HISTORY_ID_COLUMN;
        Ok (py_set (astype_str (dropna column)))
  end.

(** ** [format_history_row] *)

(** [timestamp] is [datetime.now(TIMEZONE)]. *)
Definition format_history_row (rt : runtime) (timestamp : datetime)
    (place : dict) (cuisine : string) (event_date : date) : result (list value) :=
  name ← get_place_name place;
  Ok [ VStr (datetime_isoformat rt timestamp);
       VStr (date_isoformat event_date);
       VStr cuisine;
       name;
       dict_get place "id" (VStr "");
       VStr (py_str rt (dict_get place "rating" (VStr "")));
       VStr (py_str rt (dict_get place "userRatingCount" (VStr "")));
       VStr (py_str rt (dict_get place "priceLevel" (VStr "")));
       dict_get place "formattedAddress" (VStr "");
       dict_get place "googleMapsUri" (VStr "") ].

(** ** [create_calendar_event] *)

(** The [start] and [end] members of the event. *)
Definition event_time (rt : runtime) (dt : datetime) : value :=
  VDict (<["dateTime" := VStr (datetime_isoformat rt dt)]>
         (<["timeZone" := VStr TIMEZONE_key]> ∅)).

(** The body [event] that [create_calendar_event] hands to the calendar. *)
Definition calendar_event (rt : runtime) (place : dict) (event_date : date)
    : result dict :=
  let start_dt := datetime_combine event_date 18 0 in
  let end_dt := datetime_combine event_date 20 0 in
  name ← get_place_name place;
  Ok (<["summary" := VStr ("Dinner @ " +:+ py_str rt name)]>
      (<["location" := dict_get place "formattedAddress" (VStr "")]>
      (<["description" :=
           VStr (py_str rt name
                 +:+ " | Rating: " +:+ py_str rt (dict_get place "rating" (VStr "N/A"))
                 +:+ " | Reviews: "
                 +:+ py_str rt (dict_get place "userRatingCount" (VStr "N/A"))
                 +:+ " | Link: " +:+ py_str rt (dict_get place "googleMapsUri" (VStr "")))]>
      (<["start" := event_time rt start_dt]>
      (<["end" := event_time rt end_dt]> ∅))))).

(** ** The run of the script: effects and the outside world *)

(** What the page shows, in the order of the [st.*] calls. *)
Inductive ui : Type :=
  | Header (body : string)
  | Subheader (body : value)
  | WriteText (body : string)
  | Markdown (body : string)
  | Success (body : string)
  | Warning (body : string)
  | Error (body : string).

(** A secret of [st.secrets]: a string or a table. *)
Inductive secret : Type :=
  | SecretStr (s : string)
  | SecretTable (d : dict).

(** The requests the script sends to the services. *)
Inductive call : Type :=
  | SheetsGet (spreadsheet_id : secret)
  | SheetsAppend (spreadsheet_id : secret) (row : list value)
  | PlacesPost (api_key : secret) (text_query : string)
  | CalendarInsert (calendar_id : secret) (event : dict).

Inductive event : Type :=
  | Called (c : call)
  | Shown (u : ui).

(** How a piece of the script ends: it returns, it raises, or it runs
    into [st.stop()], which ends the run and is no [Exception]. *)
Inductive outcome (A : Type) : Type :=
  | Returned (a : A)
  | Raised (e : exn)
  | Stopped.
Arguments Returned {A} a.
Arguments Raised {A} e.
Arguments Stopped {A}.

(** A piece of the script: the events it causes and how it ends. *)
Definition script (A : Type) : Type := list event * outcome A.

#[global] Instance script_ret : MRet script := fun A a => ([], Returned a).
#[global] Instance script_bind : MBind script := fun A B f m =>
  match m with
  | (t, Returned a) => let '(t', o) := f a in (t ++ t', o)
  | (t, Raised e) => (t, Raised e)
  | (t, Stopped) => (t, Stopped)
  end.

Definition lift {A : Type} (r : result A) : script A :=
  ([], match r with Ok a => Returned a | Raise e => Raised e end).

Definition emit (e : event) : script unit := ([e], Returned ()).

Definition st_stop : script unit := ([], Stopped).

(** The answer of the places service to a search.  [json_places] is
    [response.json().get("places")]: the decoded body is an object whose
    member [places], when present, is a list of objects; decoding the body
    may fail. *)
Record http_response : Type := HttpResponse {
  status_code : Z;
  reason : string;
  json_places : result (option (list dict))
}.

(** Everything the run takes from outside: secrets, random draws, the
    clock, and the answers of the services. *)
Record world : Type := World {
  w_button : bool;
  w_secrets : gmap string secret;
  w_missing_secret_text : string → string;
  w_randbelow_cuisine : nat → nat;
  w_randbelow_place : nat → nat;
  w_now_monday : datetime;
  w_now_row : datetime;
  w_google_clients : value → result unit;
  w_sheets_get : result (option (list (list string)));
  w_places_post : string → result http_response;
  w_sheets_append : list value → result unit;
  w_calendar_insert : dict → result unit
}.

(** [st.secrets[key]] *)
Definition st_secret (w : world) (key : string) : result secret :=
  match w_secrets w !! key with
  | Some s => Ok s
  | None => Raise (OtherException "KeyError" (w_missing_secret_text w key))
  end.

(** [load_service_account_info] *)
Definition load_service_account_info (rt : runtime) (w : world) : result value :=
  raw ← st_secret w "GOOGLE_SERVICE_ACCOUNT_JSON";
  match raw with
  | SecretStr s => json_loads rt s
  | SecretTable d => Ok (VDict d)
  end.

(** [build_google_clients]: the credentials and the two service objects
    are built from the account information, or building them fails. *)
Definition build_google_clients (rt : runtime) (w : world) : result unit :=
  info ← load_service_account_info rt w;
  w_google_clients w info.

(** The read of the log with which [fetch_history_place_ids] starts,
    followed by the function on the rows read. *)
Definition fetch_history (w : world) : script (gset string) :=
  spreadsheet_id ← lift (st_secret w "SPREADSHEET_ID");
  emit (Called (SheetsGet spreadsheet_id));;
  values ← lift (w_sheets_get w);
  lift (fetch_history_place_ids values).

(** [append_history_row] *)
Definition append_history_row (w : world) (row : list value) : script unit :=
  spreadsheet_id ← lift (st_secret w "SPREADSHEET_ID");
  emit (Called (SheetsAppend spreadsheet_id row));;
  lift (w_sheets_append w row).

Definition PLACES_URL : string := "https://places.googleapis.com/v1/places:searchText".

(** [response.raise_for_status()] *)
Definition raise_for_status (r : http_response) : result unit :=
  let code := status_code r in
  if (400 <=? code) && (code <? 500) then
    Raise (HTTPError (pretty code +:+ " Client Error: " +:+ reason r
                      +:+ " for url: " +:+ PLACES_URL))
  else if (500 <=? code) && (code <? 600) then
    Raise (HTTPError (pretty code +:+ " Server Error: " +:+ reason r
                      +:+ " for url: " +:+ PLACES_URL))
  else Ok ().

(** [search_places] *)
Definition search_places (w : world) (cuisine : string) : script (list dict) :=
  api_key ← lift (st_secret w "Maps_API_KEY");
  let text_query := cuisine +:+ " food near 92117" in
  emit (Called (PlacesPost api_key text_query));;
  response ← lift (w_places_post w text_query);
  lift (raise_for_status response);;
  places ← lift (json_places response);
  mret (default [] places).

(** [create_calendar_event] *)
Definition create_calendar_event (rt : runtime) (w : world) (place : dict)
    (event_date : date) : script unit :=
  calendar_id ← lift (st_secret w "CALENDAR_ID");
  body ← lift (calendar_event rt place event_date);
  emit (Called (CalendarInsert calendar_id body));;
  lift (w_calendar_insert w body).

Definition NO_ELIGIBLE : string :=
  "No eligible restaurants found for that cuisine. Try rolling again.".

(** The body of the [try] statement. *)
Definition roll_the_dice (rt : runtime) (w : world) : script unit :=
  cuisine_choice ← lift (random_choice (w_randbelow_cuisine w) CUISINES);
  monday_date ← lift (get_next_monday_date (dt_date (w_now_monday w)));
  lift (build_google_clients rt w);;
  history_ids ← fetch_history w;
  places ← search_places w cuisine_choice;
  chosen_place ← lift (choose_place (w_randbelow_place w) places history_ids);
  match chosen_place with
  | None => emit (Shown (Warning NO_ELIGIBLE));; st_stop
  | Some chosen_place =>
      if negb (truthy (VDict chosen_place))
      then emit (Shown (Warning NO_ELIGIBLE));; st_stop
      else
        history_row ← lift (format_history_row rt (w_now_row w) chosen_place
                              cuisine_choice monday_date);
        append_history_row w history_row;;
        create_calendar_event rt w chosen_place monday_date;;
        name ← lift (get_place_name chosen_place);
        emit (Shown (Subheader name));;
        emit (Shown (WriteText
          (cuisine_choice +:+ " | "
           +:+ py_str rt (dict_get chosen_place "rating" (VStr "N/A")) +:+ " ⭐")));;
        (let maps_uri := dict_get chosen_place "googleMapsUri" VNone in
         if truthy maps_uri
         then emit (Shown (Markdown
                ("[View on Google Maps](" +:+ py_str rt maps_uri +:+ ")")))
         else mret ());;
        emit (Shown (Success "History Updated"));;
        emit (Shown (Success "Calendar Invite Sent"))
  end.

(** The two [except] clauses: [requests.HTTPError] first, then any other
    [Exception]. *)
Definition handle_errors (body : script unit) : script unit :=
  match body with
  | (t, Raised exc) =>
      (t ++ [Shown (Error ((if is_http_error exc then "Places API error: "
                            else "Something went wrong: ") +:+ exn_str exc))],
       Returned ())
  | finished => finished
  end.

(** The script, run once from top to bottom; [w_button] is what
    [st.button("Roll the Dice")] returns.  The page configuration (title
    and icon) shows nothing and is no event. *)
Definition app (rt : runtime) (w : world) : script unit :=
  emit (Shown (Header "Weekly New Restaurant Night"));;
  if w_button w then handle_errors (roll_the_dice rt w) else mret ().

(** ** The data model of the specification *)

(** A value that is a number with a rational value: an [int], or a
    [float] that is a well-formed finite binary64 number. *)
Definition is_number (v : value) : bool :=
  match v with
  | VInt _ => true
  | VFloat (S754_zero _) => true
  | VFloat (S754_finite _ m e) => bounded 53 1024 m e
  | _ => false
  end.

Definition is_str (v : value) : bool :=
  match v with VStr _ => true | _ => false end.

Definition is_dict (v : value) : bool :=
  match v with VDict _ => true | _ => false end.

(** A field that may be absent and has the given kind when present. *)
Definition field_is (kind : value → bool) (d : dict) (key : string) : bool :=
  match d !! key with
  | Some v => kind v
  | None => true
  end.

(** The fields of a place that [choose_place] reads: an identifier that is
    a string, a rating and a review count that are numbers; each may be
    absent. *)
Definition is_place (d : dict) : bool :=
  field_is is_str d "id" && field_is is_number d "rating"
  && field_is is_number d "userRatingCount".

(** The rational value of a number. *)
Definition number_Q (v : value) : option Q :=
  match v with
  | VInt z => Some (inject_Z z)
  | VFloat (S754_zero _) => Some 0%Q
  | VFloat (S754_finite s m e) => Some (finite_Q s m e)
  | _ => None
  end.

(** [field_at_least d key q]: the field is present and its value is a
    number that is at least [q]. *)
Definition field_at_least (d : dict) (key : string) (q : Q) : bool :=
  match d !! key ≫= number_Q with
  | Some x => Qle_bool q x
  | None => false
  end.

(** The name of a place in the words of the data model: the text of its
    display name, and "Unknown Restaurant" for a place without a display
    name or whose display name has no text. *)
Definition place_name_text (d : dict) : value :=
  match d !! "displayName" with
  | Some (VDict name) => default (VStr "Unknown Restaurant") (name !! "text")
  | _ => VStr "Unknown Restaurant"
  end.

(** The identifier of a place, where it has one: a string that is not
    empty (an empty string is no identifier). *)
Definition place_identifier (d : dict) : option string :=
  match d !! "id" with
  | Some (VStr s) => if String.eqb s "" then None else Some s
  | _ => None
  end.

(** Eligibility in the words of the specification: the place has an
    identifier, the identifier is not excluded, the rating is at least
    4.2 and the review count is at least 200. *)
Definition spec_eligible (excluded : gset string) (d : dict) : bool :=
  match place_identifier d with
  | Some s =>
      negb (bool_decide (s ∈ excluded))
      && field_at_least d "rating" (42 # 10)
      && field_at_least d "userRatingCount" (200 # 1)
  | None => false
  end.

(** ** Observations on the events of a run *)

(** The texts of the [st.error] boxes, in order. *)
Definition shown_errors (t : list event) : list string :=
  omap (λ e, match e with Shown (Error s) => Some s | _ => None end) t.

(** The four kinds of request. *)
Inductive call_kind : Type :=
  | KSheetsGet
  | KPlacesPost
  | KSheetsAppend
  | KCalendarInsert.

Definition kind_of (c : call) : call_kind :=
  match c with
  | SheetsGet _ => KSheetsGet
  | PlacesPost _ _ => KPlacesPost
  | SheetsAppend _ _ => KSheetsAppend
  | CalendarInsert _ _ => KCalendarInsert
  end.

(** The kinds of the requests sent, in order. *)
Definition call_kinds (t : list event) : list call_kind :=
  omap (λ e, match e with Called c => Some (kind_of c) | _ => None end) t.

(** [follows kinds m]: the piece [m] of the script shows no error box and
    sends its requests in the order [kinds], each once: all of them when
    it returns, the first few when it raises or stops. *)
Definition follows {A : Type} (kinds : list call_kind) (m : script A) : Prop :=
  shown_errors m.1 = []
  ∧ call_kinds m.1 `prefix_of` kinds
  ∧ ∀ a, m.2 = Returned a → call_kinds m.1 = kinds.

(** ** Sample data *)

(** A run-time system whose texts are fixed, for evaluating the model. *)
Definition sample_runtime : runtime :=
  Runtime (λ _, "4.5") (λ _, "[...]") (λ _, -28800) (λ _, Ok (VDict ∅)).

(** Rating 4.5 (the float [5066549580791808 * 2^-50]), 250 reviews. *)
Definition thai_place : dict :=
  <["id" := VStr "ChIJthai"]>
  (<["displayName" := VDict (<["text" := VStr "Thai Garden"]> ∅)]>
  (<["rating" := VFloat (S754_finite false 5066549580791808 (-50))]>
  (<["userRatingCount" := VInt 250]>
  (<["formattedAddress" := VStr "1 Main St"]>
  (<["googleMapsUri" := VStr "https://maps.example/thai"]> ∅))))).

(** Rating 4 and no review count. *)
Definition low_place : dict :=
  <["id" := VStr "ChIJlow"]> (<["rating" := VInt 4]> ∅).

(** Rating 4.8 (the float [5404319552844595 * 2^-50]), 900 reviews. *)
Definition seen_place : dict :=
  <["id" := VStr "ChIJseen"]>
  (<["rating" := VFloat (S754_finite false 5404319552844595 (-50))]>
  (<["userRatingCount" := VInt 900]> ∅)).

Definition sample_secrets : gmap string secret :=
  <["GOOGLE_SERVICE_ACCOUNT_JSON" := SecretStr "{}"]>
  (<["SPREADSHEET_ID" := SecretStr "sheet"]>
  (<["Maps_API_KEY" := SecretStr "key"]>
  (<["CALENDAR_ID" := SecretStr "calendar"]> ∅))).

Definition sample_log : list (list string) :=
  [ ["Timestamp"; "Event Date"; "Cuisine"; "Restaurant"; "Google Place ID"];
    ["2027-01-11T10:00:00-08:00"; "2027-01-18"; "Greek"; "Olive"; "ChIJseen"] ].

(** A world in which every service answers; [places] is what the search
    finds.  The clock reads Monday 2027-01-18. *)
Definition sample_world (places : list dict) : world := {|
  w_button := true;
  w_secrets := sample_secrets;
  w_missing_secret_text := λ key, key;
  w_randbelow_cuisine := λ _, 6%nat;
  w_randbelow_place := λ _, 0%nat;
  w_now_monday := DateTime (Date 739999) 10 0 0 0;
  w_now_row := DateTime (Date 739999) 10 0 1 0;
  w_google_clients := λ _, Ok ();
  w_sheets_get := Ok (Some sample_log);
  w_places_post := λ _, Ok (HttpResponse 200 "OK" (Ok (Some places)));
  w_sheets_append := λ _, Ok ();
  w_calendar_insert := λ _, Ok ()
|}.

(** [thai_place] with a rating that is not a number (NaN), with a null
    rating, and with a display name that is a string, not an object. *)
Definition nan_rating_place : dict := <["rating" := VFloat S754_nan]> thai_place.
Definition null_rating_place : dict := <["rating" := VNone]> thai_place.
Definition string_name_place : dict := <["displayName" := VStr "Thai Garden"]> thai_place.

(** The event of [thai_place] on Monday 2027-01-25. *)
Definition sample_event : dict :=
  match calendar_event sample_runtime thai_place (Date 740006) with
  | Ok event => event
  | Raise _ => ∅
  end.

(** The row of [thai_place], written at 10:00:01 for Monday 2027-01-25. *)
Definition sample_row : list value :=
  match format_history_row sample_runtime (DateTime (Date 739999) 10 0 1 0)
          thai_place "Thai" (Date 740006) with
  | Ok row => row
  | Raise _ => []
  end.

(** The same world, except that the places service answers 403. *)
Definition forbidden_world : world := {|
  w_button := true;
  w_secrets := sample_secrets;
  w_missing_secret_text := λ key, key;
  w_randbelow_cuisine := λ _, 6%nat;
  w_randbelow_place := λ _, 0%nat;
  w_now_monday := DateTime (Date 739999) 10 0 0 0;
  w_now_row := DateTime (Date 739999) 10 0 1 0;
  w_google_clients := λ _, Ok ();
  w_sheets_get := Ok (Some sample_log);
  w_places_post := λ _, Ok (HttpResponse 403 "Forbidden" (Ok None));
  w_sheets_append := λ _, Ok ();
  w_calendar_insert := λ _, Ok ()
|}.

(** * Proofs *)

(** ** The order of numbers against the two thresholds *)

Lemma digits2_pos_size (m : positive) : digits2_pos m = Pos.size m.
Proof. induction m as [m IH|m IH|]; simpl; congruence. Qed.

Lemma bounded_mantissa_lt (m : positive) (e : Z) :
  bounded 53 1024 m e = true → (Z.pos m < 2 ^ 53)%Z.
Proof.
  unfold bounded, canonical_mantissa, fexp, emin.
  rewrite andb_true_iff, Z.eqb_eq, digits2_pos_size. intros [Hc _].
  assert (Hs : (Z.pos (Pos.size m) <= 53)%Z) by lia.
  pose proof (Pos.size_gt m) as Hgt.
  assert (Hp : (Z.pos m < 2 ^ Z.pos (Pos.size m))%Z).
  { rewrite <- Pos2Z.inj_pow. lia. }
  eapply Z.lt_le_trans; [exact Hp|].
  apply Z.pow_le_mono_r; lia.
Qed.

Lemma bounded_mantissa_ge (m : positive) (e : Z) :
  bounded 53 1024 m e = true → (-1074 < e)%Z → (2 ^ 52 <= Z.pos m)%Z.
Proof.
  unfold bounded, canonical_mantissa, fexp, emin.
  rewrite andb_true_iff, Z.eqb_eq, digits2_pos_size. intros [Hc _] He.
  assert (Hs : Z.pos (Pos.size m) = 53%Z) by lia.
  pose proof (Pos.size_le m) as Hle.
  assert (Hp : (2 ^ Z.pos (Pos.size m) <= 2 * Z.pos m)%Z).
  { rewrite <- Pos2Z.inj_pow. lia. }
  rewrite Hs in Hp. change (2 ^ 53)%Z with (2 * 2 ^ 52)%Z in Hp. lia.
Qed.

Lemma Qle_bool_unfold (a b : Q) :
  Qle_bool a b = (Qnum a * Z.pos (Qden b) <=? Qnum b * Z.pos (Qden a))%Z.
Proof. reflexivity. Qed.

Lemma Qcompare_unfold (a b : Q) :
  (a ?= b)%Q = (Qnum a * Z.pos (Qden b) ?= Qnum b * Z.pos (Qden a))%Z.
Proof. reflexivity. Qed.

Lemma lt_MIN_RATING_int (z : Z) :
  num_ltb (NInt z) MIN_RATING = negb (Qle_bool (42 # 10) (inject_Z z)).
Proof.
  unfold num_ltb, MIN_RATING, num_compare, compare_Z_float, finite_Q.
  rewrite Qcompare_unfold, Qle_bool_unfold. cbn [Qnum Qden inject_Z].
  change (Z.pos (2 ^ 50)) with 1125899906842624%Z.
  destruct (Z.compare_spec (z * 1125899906842624) (4728779608739021 * 1));
    symmetry; [apply negb_false_iff| apply negb_true_iff| apply negb_false_iff];
    rewrite ?Z.leb_le, ?Z.leb_gt; lia.
Qed.

Lemma pos_pow_Z (k : positive) : Z.pos (2 ^ k) = (2 ^ Z.pos k)%Z.
Proof. apply Pos2Z.inj_pow. Qed.

Lemma compare_cont_ltb (m c : positive) :
  match PosDef.Pos.compare_cont Eq m c with Lt => true | _ => false end
  = (Z.pos m <? Z.pos c)%Z.
Proof. reflexivity. Qed.

Lemma lt_MIN_RATING_float (s : bool) (m : positive) (e : Z) :
  bounded 53 1024 m e = true →
  num_ltb (NFloat (S754_finite s m e)) MIN_RATING
  = negb (Qle_bool (42 # 10) (finite_Q s m e)).
Proof.
  intros Hb. pose proof (bounded_mantissa_lt m e Hb) as Hlt.
  unfold num_ltb, MIN_RATING, num_compare, SFcompare.
  rewrite Qle_bool_unfold. destruct s.
  - symmetry. apply negb_true_iff, Z.leb_gt.
    unfold finite_Q. destruct e as [|p|k]; cbn [Qnum Qden inject_Z]; lia.
  - destruct (Z.compare_spec e (-50)) as [-> | He | He].
    + unfold finite_Q. cbn [Qnum Qden].
      change (Z.pos (2 ^ 50)) with 1125899906842624%Z.
      rewrite compare_cont_ltb.
      destruct (Z.ltb_spec (Z.pos m) 4728779608739021); symmetry;
        rewrite ?negb_true_iff, ?negb_false_iff, ?Z.leb_le, ?Z.leb_gt; lia.
    + symmetry. apply negb_true_iff, Z.leb_gt.
      destruct e as [|p|k]; try lia. unfold finite_Q. cbn [Qnum Qden].
      rewrite pos_pow_Z.
      assert (2 ^ 51 <= 2 ^ Z.pos k)%Z by (apply Z.pow_le_mono_r; lia).
      change (2 ^ 53)%Z with (4 * 2 ^ 51)%Z in Hlt. lia.
    + assert (Hge : (2 ^ 52 <= Z.pos m)%Z)
        by (apply (bounded_mantissa_ge m e Hb); lia).
      symmetry. apply negb_false_iff, Z.leb_le.
      unfold finite_Q. destruct e as [|p|k]; cbn [Qnum Qden inject_Z].
      * change (2 ^ 52)%Z with 4503599627370496%Z in Hge. lia.
      * assert (1 <= 2 ^ Z.pos p)%Z by (apply Z.lt_pred_le, Z.pow_pos_nonneg; lia).
        change (2 ^ 52)%Z with 4503599627370496%Z in Hge. nia.
      * rewrite pos_pow_Z.
        assert (2 ^ Z.pos k <= 2 ^ 49)%Z by (apply Z.pow_le_mono_r; lia).
        change (2 ^ 52)%Z with (8 * 2 ^ 49)%Z in Hge. lia.
Qed.

Lemma lt_MIN_REVIEWS_number (v : value) (q : Q) :
  number_Q v = Some q →
  py_lt v MIN_REVIEWS = Ok (negb (Qle_bool (200 # 1) q)).
Proof.
  unfold py_lt, MIN_REVIEWS, num_ltb.
  destruct v as [| | z | [sz|si| |s m e] | | |]; try discriminate;
    intros [= <-]; cbn [as_num num_compare compare_Z_float fmap option_fmap option_map];
    f_equal; rewrite Qle_bool_unfold.
  - cbn [Qnum Qden inject_Z].
    destruct (Z.compare_spec z 200); symmetry;
      rewrite ?negb_true_iff, ?negb_false_iff, ?Z.leb_le, ?Z.leb_gt; lia.
  - rewrite Qcompare_unfold. cbn [Qnum Qden inject_Z].
    destruct (Z.compare_spec (200 * Z.pos (Qden (finite_Q s m e)))
                (Qnum (finite_Q s m e) * 1)); cbn [CompOpp]; symmetry;
      rewrite ?negb_true_iff, ?negb_false_iff, ?Z.leb_le, ?Z.leb_gt; lia.
Qed.

Lemma lt_MIN_RATING_number (v : value) (q : Q) :
  is_number v = true → number_Q v = Some q →
  py_lt v MIN_RATING = Ok (negb (Qle_bool (42 # 10) q)).
Proof.
  unfold py_lt.
  destruct v as [| | z | [sz|si| |s m e] | | |]; try discriminate;
    cbn [is_number]; intros Hn [= <-]; cbn [as_num]; f_equal.
  - apply lt_MIN_RATING_int.
  - by apply lt_MIN_RATING_float.
Qed.

(** ** The loop of [choose_place] *)

Lemma dict_get_lookup (d : dict) (key : string) (default v : value) :
  d !! key = Some v → dict_get d key default = v.
Proof. unfold dict_get. by intros ->. Qed.

Lemma dict_get_absent (d : dict) (key : string) (default : value) :
  d !! key = None → dict_get d key default = default.
Proof. unfold dict_get. by intros ->. Qed.

(** The loop appends the kept places to [eligible], in order, as long as
    no turn raises. *)
Lemma choose_place_loop_filter (history_ids : gset string) (keep : dict → bool)
    (places eligible : list dict) :
  Forall (λ p, choose_place_keeps history_ids p = Ok (keep p)) places →
  choose_place_loop history_ids places eligible
  = Ok (eligible ++ List.filter keep places).
Proof.
  intros Hall. revert eligible.
  induction Hall as [|p ps Hp _ IH]; intros eligible; cbn [choose_place_loop List.filter].
  - by rewrite app_nil_r.
  - rewrite Hp. cbn. rewrite IH. destruct (keep p); [|done].
    by rewrite <- app_assoc.
Qed.

(** When the loop returns, every turn returned, and the result lists the
    places whose turn said [true]. *)
Lemma choose_place_loop_inv (history_ids : gset string)
    (places eligible out : list dict) :
  choose_place_loop history_ids places eligible = Ok out →
  ∃ kept, out = eligible ++ kept
    ∧ Forall (λ p, choose_place_keeps history_ids p = Ok true) kept
    ∧ kept ⊆ places
    ∧ Forall (λ p, ∃ b, choose_place_keeps history_ids p = Ok b) places.
Proof.
  revert eligible. induction places as [|p ps IH]; intros eligible; cbn [choose_place_loop].
  - intros [= <-]. exists []. rewrite app_nil_r.
    split; [done|]. split; [constructor|]. split; [done|constructor].
  - destruct (choose_place_keeps history_ids p) as [b|e] eqn:Hp; [|done]. cbn.
    intros Hloop. destruct (IH _ Hloop) as (kept & -> & Hkept & Hsub & Hall).
    destruct b.
    + exists (p :: kept). rewrite <- app_assoc.
      split; [done|]. split; [by constructor|].
      split; [by apply list_subseteq_skip|]. constructor; eauto.
    + exists kept. split; [done|]. split; [done|].
      split; [by apply list_subseteq_cons|]. constructor; eauto.
Qed.

Lemma field_is_lookup (kind : value → bool) (d : dict) (key : string) (v : value) :
  field_is kind d key = true → d !! key = Some v → kind v = true.
Proof. unfold field_is. intros H Hv. by rewrite Hv in H. Qed.

(** On a place with fields of the expected kinds a turn of the loop
    raises nothing and decides eligibility as the specification words it. *)
Lemma choose_place_keeps_spec (history_ids : gset string) (p : dict) :
  is_place p = true →
  choose_place_keeps history_ids p = Ok (spec_eligible history_ids p).
Proof.
  unfold is_place. rewrite !andb_true_iff. intros [[Hid Hrating] Hreviews].
  unfold choose_place_keeps, spec_eligible, place_identifier, field_at_least.
  assert (Hlow : ∀ key c q, (c = MIN_RATING ∧ q = (42 # 10)%Q ∨ c = MIN_REVIEWS ∧ q = (200 # 1)%Q) →
            field_is is_number p key = true →
            py_lt (dict_get p key (VInt 0)) c
            = Ok (negb (match p !! key ≫= number_Q with
                        | Some x => Qle_bool q x | None => false end))).
  { intros key c q Hc Hk. destruct (p !! key) as [v|] eqn:Hv.
    - rewrite (dict_get_lookup _ _ _ _ Hv). cbn.
      pose proof (field_is_lookup _ _ _ _ Hk Hv) as Hnum.
      destruct (number_Q v) as [x|] eqn:Hx.
      + destruct Hc as [[-> ->]|[-> ->]].
        * by apply lt_MIN_RATING_number.
        * by apply lt_MIN_REVIEWS_number.
      + by destruct v as [| | |[| | |]| | |].
    - rewrite (dict_get_absent _ _ _ Hv). cbn.
      by destruct Hc as [[-> ->]|[-> ->]]. }
  rewrite (Hlow "rating" MIN_RATING (42 # 10)%Q), (Hlow "userRatingCount" MIN_REVIEWS (200 # 1)%Q)
    by (done || auto).
  destruct (p !! "id") as [v|] eqn:Hv.
  - rewrite (dict_get_lookup _ _ _ _ Hv).
    pose proof (field_is_lookup _ _ _ _ Hid Hv) as Hstr.
    destruct v as [| | | | s | |]; try done. cbn [truthy py_in].
    destruct (String.eqb s "") eqn:Hs; cbn; [done|].
    destruct (bool_decide (s ∈ history_ids)); cbn; [done|].
    destruct (p !! "rating" ≫= number_Q) as [x|]; cbn; [|done].
    destruct (Qle_bool (42 # 10) x); cbn; [|done].
    destruct (p !! "userRatingCount" ≫= number_Q) as [y|]; cbn; [|done].
    by destruct (Qle_bool (200 # 1) y).
  - by rewrite (dict_get_absent _ _ _ Hv).
Qed.

(** What a turn that keeps the place has checked. *)
Lemma choose_place_keeps_true (history_ids : gset string) (p : dict) :
  choose_place_keeps history_ids p = Ok true →
  truthy (dict_get p "id" VNone) = true
  ∧ py_in (dict_get p "id" VNone) history_ids = Ok false
  ∧ py_lt (dict_get p "rating" (VInt 0)) MIN_RATING = Ok false
  ∧ py_lt (dict_get p "userRatingCount" (VInt 0)) MIN_REVIEWS = Ok false.
Proof.
  unfold choose_place_keeps.
  destruct (truthy (dict_get p "id" VNone)); cbn; [|done].
  destruct (py_in _ history_ids) as [[]|]; cbn; try done.
  destruct (py_lt _ MIN_RATING) as [[]|]; cbn; try done.
  destruct (py_lt _ MIN_REVIEWS) as [[]|]; cbn; try done.
Qed.

Lemma eligible_places_inv (places : list dict) (history_ids : gset string)
    (eligible : list dict) :
  eligible_places places history_ids = Ok eligible →
  Forall (λ p, choose_place_keeps history_ids p = Ok true) eligible
  ∧ eligible ⊆ places
  ∧ Forall (λ p, ∃ b, choose_place_keeps history_ids p = Ok b) places.
Proof.
  intros H. apply choose_place_loop_inv in H as (kept & -> & ? & ? & ?). done.
Qed.

(** [random.choice] returns a member of the sequence. *)
Lemma random_choice_elem {A : Type} (randbelow : nat → nat) (seq : list A) (x : A) :
  random_choice randbelow seq = Ok x → x ∈ seq.
Proof.
  unfold random_choice. destruct seq as [|y ys]; [done|].
  destruct (_ !! _) as [z|] eqn:Hz; [|done]. intros [= <-].
  by eapply list_elem_of_lookup_2.
Qed.

(** A place that [choose_place] returns is one of the survivors. *)
Lemma choose_place_Some (randbelow : nat → nat) (places : list dict)
    (history_ids : gset string) (p : dict) :
  choose_place randbelow places history_ids = Ok (Some p) →
  ∃ eligible, eligible_places places history_ids = Ok eligible ∧ p ∈ eligible.
Proof.
  unfold choose_place.
  destruct (eligible_places places history_ids) as [eligible|] eqn:He; [|done].
  cbn. destruct eligible as [|q qs]; [done|].
  destruct (random_choice randbelow (q :: qs)) as [x|] eqn:Hx; [|done].
  cbn. intros [= <-]. exists (q :: qs). split; [done|].
  by eapply random_choice_elem.
Qed.

Lemma choose_place_Some_keeps (randbelow : nat → nat) (places : list dict)
    (history_ids : gset string) (p : dict) :
  choose_place randbelow places history_ids = Ok (Some p) →
  p ∈ places ∧ choose_place_keeps history_ids p = Ok true.
Proof.
  intros (eligible & He & Hp)%choose_place_Some.
  apply eligible_places_inv in He as (Hkept & Hsub & _).
  split; [by apply Hsub|]. by eapply (proj1 (Forall_forall _ _)) in Hkept.
Qed.

(** ** The eligibility filter *)

(** C1, as the code has it.  On every list of places whose identifier,
    when present, is a string and whose rating and review count, when
    present, are integers or finite floats, and every exclusion set, the
    loop of [choose_place] raises nothing and leaves in [eligible] exactly
    the places that have an identifier, whose identifier is not excluded,
    whose rating is at least 4.2 and whose review count is at least 200,
    in their order; every other place is left out. *)
Theorem choose_place_filters_exactly (places : list dict) (history_ids : gset string) :
  Forall (λ p, is_place p = true) places →
  ∃ eligible,
    eligible_places places history_ids = Ok eligible
    ∧ eligible = List.filter (spec_eligible history_ids) places
    ∧ ∀ p, p ∈ eligible ↔
        p ∈ places
        ∧ (∃ s, place_identifier p = Some s ∧ s ∉ history_ids)
        ∧ field_at_least p "rating" (42 # 10) = true
        ∧ field_at_least p "userRatingCount" (200 # 1) = true.
Proof.
  intros Hplaces. exists (List.filter (spec_eligible history_ids) places).
  split; [|split; [done|]].
  - unfold eligible_places.
    rewrite (choose_place_loop_filter _ (spec_eligible history_ids)); [done|].
    eapply Forall_impl; [exact Hplaces|]. intros p Hp.
    by apply choose_place_keeps_spec.
  - intros p. rewrite list_elem_of_In, filter_In, <- list_elem_of_In.
    unfold spec_eligible. destruct (place_identifier p) as [s|].
    + rewrite !andb_true_iff, negb_true_iff, bool_decide_eq_false.
      split.
      * intros (? & [[? ?] ?]). eauto 10.
      * intros (? & (s' & [= <-] & ?) & ? & ?). done.
    + split; [by intros [_ ?]|]. by intros (_ & (s & ? & _) & _).
Qed.

Lemma choose_place_filters_exactly_witness :
  ∃ eligible,
    eligible_places [thai_place; low_place; seen_place] {["ChIJseen"]} = Ok eligible
    ∧ eligible = List.filter (spec_eligible {["ChIJseen"]}) [thai_place; low_place; seen_place]
    ∧ ∀ p, p ∈ eligible ↔
        p ∈ [thai_place; low_place; seen_place]
        ∧ (∃ s, place_identifier p = Some s ∧ s ∉ ({["ChIJseen"]} : gset string))
        ∧ field_at_least p "rating" (42 # 10) = true
        ∧ field_at_least p "userRatingCount" (200 # 1) = true.
Proof.
  apply (choose_place_filters_exactly [thai_place; low_place; seen_place] {["ChIJseen"]}).
  repeat constructor.
Defined.

(** C1 as stated, for every list of places, fails where a rating is no
    finite number.  A place with the rating NaN survives the filter
    although its rating is not at least 4.2 ([nan < 4.2] is false); a
    place with a null rating makes the loop raise a [TypeError], so that
    no subset is returned. *)
Lemma choose_place_filter_needs_numbers :
  eligible_places [nan_rating_place] ∅ = Ok [nan_rating_place]
  ∧ field_at_least nan_rating_place "rating" (42 # 10) = false
  ∧ eligible_places [null_rating_place] ∅
    = Raise (TypeError "'<' not supported between instances of 'NoneType' and 'float'")
  ∧ ¬ (∀ (places : list dict) (history_ids : gset string),
         ∃ eligible,
           eligible_places places history_ids = Ok eligible
           ∧ ∀ p, p ∈ eligible ↔
               p ∈ places
               ∧ (∃ s, place_identifier p = Some s ∧ s ∉ history_ids)
               ∧ field_at_least p "rating" (42 # 10) = true
               ∧ field_at_least p "userRatingCount" (200 # 1) = true).
Proof.
  assert (Hkept : eligible_places [nan_rating_place] ∅ = Ok [nan_rating_place])
    by (vm_compute; reflexivity).
  assert (Hlow : field_at_least nan_rating_place "rating" (42 # 10) = false)
    by reflexivity.
  split; [done|]. split; [done|]. split; [vm_compute; reflexivity|].
  intros Hall. destruct (Hall [nan_rating_place] ∅) as (eligible & He & Hmem).
  rewrite Hkept in He. injection He as <-.
  destruct (proj1 (Hmem nan_rating_place)) as (_ & _ & Hrating & _); [by left|].
  by rewrite Hlow in Hrating.
Qed.

(** ** Pieces of the script *)

Lemma script_bind_inv {A B : Type} (m : script A) (f : A → script B)
    (t : list event) (o : outcome B) :
  m ≫= f = (t, o) →
  (∃ t1 a t2, m = (t1, Returned a) ∧ f a = (t2, o) ∧ t = t1 ++ t2)
  ∨ (∃ e, m = (t, Raised e) ∧ o = Raised e)
  ∨ (m = (t, Stopped) ∧ o = Stopped).
Proof.
  destruct m as [t1 [a|e|]]; cbn.
  - destruct (f a) as [t2 o2] eqn:Hf. intros [= <- <-]. left. eauto 10.
  - intros [= <- <-]. right. left. eauto.
  - intros [= <- <-]. right. right. eauto.
Qed.

Lemma script_bind_returned {A B : Type} (m : script A) (f : A → script B)
    (t1 : list event) (a : A) :
  m = (t1, Returned a) → m ≫= f = (t1 ++ (f a).1, (f a).2).
Proof. intros ->. cbn. by destruct (f a). Qed.

Lemma lift_inv {A : Type} (r : result A) (t : list event) (o : outcome A) :
  lift r = (t, o) →
  t = [] ∧ ((∃ a, r = Ok a ∧ o = Returned a) ∨ (∃ e, r = Raise e ∧ o = Raised e)).
Proof. destruct r; intros [= <- <-]; eauto 10. Qed.

Lemma shown_errors_app (t1 t2 : list event) :
  shown_errors (t1 ++ t2) = shown_errors t1 ++ shown_errors t2.
Proof. apply omap_app. Qed.

Lemma call_kinds_app (t1 t2 : list event) :
  call_kinds (t1 ++ t2) = call_kinds t1 ++ call_kinds t2.
Proof. apply omap_app. Qed.

Lemma follows_lift {A : Type} (r : result A) : follows [] (lift r).
Proof. by destruct r. Qed.

Lemma follows_mret {A : Type} (a : A) : follows [] (mret a : script A).
Proof. done. Qed.

Lemma follows_stop : follows [] st_stop.
Proof. done. Qed.

Lemma follows_call (c : call) : follows [kind_of c] (emit (Called c)).
Proof. done. Qed.

Lemma follows_show (u : ui) :
  (∀ s, u ≠ Error s) → follows [] (emit (Shown u)).
Proof. intros Hu. destruct u; try done. by destruct (Hu body). Qed.

Lemma follows_bind {A B : Type} (ks1 ks2 : list call_kind) (m : script A)
    (f : A → script B) :
  follows ks1 m → (∀ a, follows ks2 (f a)) → follows (ks1 ++ ks2) (m ≫= f).
Proof.
  destruct m as [t1 [a|e|]]; unfold follows; cbn [fst snd];
    intros (He & Hp & Hr) Hf.
  - specialize (Hf a).
    change ((t1, Returned a) ≫= f) with (let '(t', o) := f a in (t1 ++ t', o)).
    destruct (f a) as [t2 o2]. cbn [fst snd] in *.
    destruct Hf as (He2 & Hp2 & Hr2).
    rewrite shown_errors_app, call_kinds_app, He, He2, (Hr a eq_refl).
    split; [done|]. split; [by apply prefix_app|].
    intros b ->. by rewrite (Hr2 b).
  - change ((t1, Raised e) ≫= f) with ((t1, Raised e) : script B). cbn [fst snd].
    split; [done|]. split; [by apply prefix_app_r|done].
  - change ((t1, Stopped) ≫= f) with ((t1, Stopped) : script B). cbn [fst snd].
    split; [done|]. split; [by apply prefix_app_r|done].
Qed.

Lemma follows_bind_nil {A B : Type} (ks : list call_kind) (m : script A)
    (f : A → script B) :
  follows [] m → (∀ a, follows ks (f a)) → follows ks (m ≫= f).
Proof. apply (follows_bind [] ks). Qed.

(** A piece that never returns may stand for any continuation. *)
Lemma follows_no_return {A : Type} (ks ks' : list call_kind) (m : script A) :
  follows ks m → (∀ a, m.2 ≠ Returned a) → follows (ks ++ ks') m.
Proof.
  intros (He & Hp & _) Hn. split; [done|]. split; [by apply prefix_app_r|].
  intros a Ha. by destruct (Hn a).
Qed.

Lemma fetch_history_follows (w : world) : follows [KSheetsGet] (fetch_history w).
Proof.
  unfold fetch_history.
  apply follows_bind_nil; [apply follows_lift|]. intros sid.
  apply (follows_bind [KSheetsGet] []); [apply follows_call|]. intros _.
  apply follows_bind_nil; [apply follows_lift|]. intros values.
  apply follows_lift.
Qed.

Lemma search_places_follows (w : world) (cuisine : string) :
  follows [KPlacesPost] (search_places w cuisine).
Proof.
  unfold search_places.
  apply follows_bind_nil; [apply follows_lift|]. intros key.
  apply (follows_bind [KPlacesPost] []); [apply follows_call|]. intros _.
  apply follows_bind_nil; [apply follows_lift|]. intros response.
  apply follows_bind_nil; [apply follows_lift|]. intros _.
  apply follows_bind_nil; [apply follows_lift|]. intros places.
  apply follows_mret.
Qed.

Lemma append_history_row_follows (w : world) (row : list value) :
  follows [KSheetsAppend] (append_history_row w row).
Proof.
  unfold append_history_row.
  apply follows_bind_nil; [apply follows_lift|]. intros sid.
  apply (follows_bind [KSheetsAppend] []); [apply follows_call|]. intros _.
  apply follows_lift.
Qed.

Lemma create_calendar_event_follows (rt : runtime) (w : world) (place : dict)
    (event_date : date) :
  follows [KCalendarInsert] (create_calendar_event rt w place event_date).
Proof.
  unfold create_calendar_event.
  apply follows_bind_nil; [apply follows_lift|]. intros cid.
  apply follows_bind_nil; [apply follows_lift|]. intros body.
  apply (follows_bind [KCalendarInsert] []); [apply follows_call|]. intros _.
  apply follows_lift.
Qed.

Lemma warn_and_stop_follows (ks : list call_kind) :
  follows ks (emit (Shown (Warning NO_ELIGIBLE));; st_stop).
Proof. apply (follows_no_return [] ks); done. Qed.

(** The body of the [try] sends the four requests in order, each at most
    once, and shows no error box itself. *)
Lemma roll_the_dice_follows (rt : runtime) (w : world) :
  follows [KSheetsGet; KPlacesPost; KSheetsAppend; KCalendarInsert]
    (roll_the_dice rt w).
Proof.
  unfold roll_the_dice.
  apply follows_bind_nil; [apply follows_lift|]. intros cuisine.
  apply follows_bind_nil; [apply follows_lift|]. intros monday.
  apply follows_bind_nil; [apply follows_lift|]. intros _.
  apply (follows_bind [KSheetsGet] [KPlacesPost; KSheetsAppend; KCalendarInsert]);
    [apply fetch_history_follows|]. intros history_ids.
  apply (follows_bind [KPlacesPost] [KSheetsAppend; KCalendarInsert]);
    [apply search_places_follows|]. intros places.
  apply follows_bind_nil; [apply follows_lift|]. intros [chosen|];
    [|apply warn_and_stop_follows].
  destruct (negb (truthy (VDict chosen))); [apply warn_and_stop_follows|].
  apply follows_bind_nil; [apply follows_lift|]. intros row.
  apply (follows_bind [KSheetsAppend] [KCalendarInsert]);
    [apply append_history_row_follows|]. intros _.
  apply (follows_bind [KCalendarInsert] []);
    [apply create_calendar_event_follows|]. intros _.
  apply follows_bind_nil; [apply follows_lift|]. intros name.
  apply follows_bind_nil; [by apply follows_show|]. intros _.
  apply follows_bind_nil; [by apply follows_show|]. intros _.
  apply follows_bind_nil.
  { destruct (truthy _); [by apply follows_show|apply follows_mret]. }
  intros _.
  apply follows_bind_nil; [by apply follows_show|]. intros _.
  by apply follows_show.
Qed.

Lemma raise_for_status_error (r : http_response) :
  400 <= status_code r < 600 →
  ∃ msg, raise_for_status r = Raise (HTTPError msg).
Proof.
  intros Hc. unfold raise_for_status.
  destruct (Z.ltb_spec (status_code r) 500).
  - replace (400 <=? status_code r) with true by (symmetry; apply Z.leb_le; lia).
    cbn. eauto.
  - replace (400 <=? status_code r) with true by (symmetry; apply Z.leb_le; lia).
    replace (500 <=? status_code r) with true by (symmetry; apply Z.leb_le; lia).
    replace (status_code r <? 600) with true by (symmetry; apply Z.ltb_lt; lia).
    cbn. eauto.
Qed.

Lemma search_places_http_error (w : world) (cuisine : string) (api_key : secret)
    (response : http_response) :
  st_secret w "Maps_API_KEY" = Ok api_key →
  w_places_post w (cuisine +:+ " food near 92117") = Ok response →
  400 <= status_code response < 600 →
  ∃ msg, search_places w cuisine
         = ([Called (PlacesPost api_key (cuisine +:+ " food near 92117"))],
            Raised (HTTPError msg)).
Proof.
  intros Hk Hp Hs. destruct (raise_for_status_error response Hs) as [msg Hmsg].
  exists msg. unfold search_places. rewrite Hk. cbn. rewrite Hp. cbn.
  by rewrite Hmsg.
Qed.

(** ** The two error outcomes *)

(** C8.  Whatever the world does, no exception escapes the button handler
    and nothing is sent twice: the requests of a run are the first few of
    sheet read, place search, sheet append, calendar insert, in this
    order.  When a step raises, the run shows exactly one error box, after
    everything shown before: [Places API error: <message>] for a
    [requests.HTTPError], [Something went wrong: <message>] for any other
    exception; when no step raises, it shows none.  A response of the
    places service with a status from 400 to 599 makes [search_places]
    raise that [HTTPError], after the one request. *)
Theorem button_handler_error_outcomes (rt : runtime) (w : world) :
  let body := roll_the_dice rt w in
  let run := handle_errors body in
  (∀ exc, run.2 ≠ Raised exc)
  ∧ call_kinds run.1 `prefix_of` [KSheetsGet; KPlacesPost; KSheetsAppend; KCalendarInsert]
  ∧ match body.2 with
    | Raised exc =>
        let text :=
          match exc with
          | HTTPError msg => "Places API error: " +:+ msg
          | _ => "Something went wrong: " +:+ exn_str exc
          end in
        run = (body.1 ++ [Shown (Error text)], Returned ())
        ∧ shown_errors run.1 = [text]
    | _ => run = body ∧ shown_errors run.1 = []
    end
  ∧ ∀ cuisine api_key response,
      st_secret w "Maps_API_KEY" = Ok api_key →
      w_places_post w (cuisine +:+ " food near 92117") = Ok response →
      400 <= status_code response < 600 →
      ∃ msg, search_places w cuisine
             = ([Called (PlacesPost api_key (cuisine +:+ " food near 92117"))],
                Raised (HTTPError msg)).
Proof.
  intros body run. subst run.
  destruct (roll_the_dice_follows rt w) as (Herr & Hpre & _). fold body in Herr, Hpre.
  destruct body as [t [[]|exc|]]; cbn [handle_errors fst snd] in *.
  - split; [done|]. split; [done|]. split; [done|]. 
    intros cuisine api_key response. apply search_places_http_error.
  - split; [done|]. rewrite call_kinds_app, shown_errors_app, Herr, app_nil_r.
    split; [done|]. split.
    + by destruct exc.
    + intros cuisine api_key response. apply search_places_http_error.
  - split; [done|]. split; [done|]. split; [done|].
    intros cuisine api_key response. apply search_places_http_error.
Qed.

Lemma called_kind (c : call) (t : list event) :
  Called c ∈ t → kind_of c ∈ call_kinds t.
Proof.
  intros Hc. unfold call_kinds. apply list_elem_of_omap.
  exists (Called c). done.
Qed.

(** A piece that follows [ks] sends no request of another kind. *)
Lemma follows_called {A : Type} (ks : list call_kind) (m : script A) (c : call) :
  follows ks m → Called c ∈ m.1 → kind_of c ∈ ks.
Proof.
  intros (_ & [rest ->] & _) Hc%called_kind. apply elem_of_app. by left.
Qed.

Lemma fetch_history_returned (w : world) (t : list event) (ids : gset string) :
  fetch_history w = (t, Returned ids) →
  ∃ sid values, st_secret w "SPREADSHEET_ID" = Ok sid
    ∧ t = [Called (SheetsGet sid)]
    ∧ w_sheets_get w = Ok values
    ∧ fetch_history_place_ids values = Ok ids.
Proof.
  unfold fetch_history.
  destruct (st_secret w "SPREADSHEET_ID") as [sid|]; [|done]. cbn.
  destruct (w_sheets_get w) as [values|]; [|done]. cbn.
  destruct (fetch_history_place_ids values) as [ids'|] eqn:Hids; [|done]. cbn.
  intros [= <- <-]. by exists sid, values.
Qed.

Lemma search_places_returned (w : world) (cuisine : string) (t : list event)
    (places : list dict) :
  search_places w cuisine = (t, Returned places) →
  ∃ api_key response found,
    st_secret w "Maps_API_KEY" = Ok api_key
    ∧ t = [Called (PlacesPost api_key (cuisine +:+ " food near 92117"))]
    ∧ w_places_post w (cuisine +:+ " food near 92117") = Ok response
    ∧ raise_for_status response = Ok ()
    ∧ json_places response = Ok found
    ∧ places = default [] found.
Proof.
  unfold search_places.
  destruct (st_secret w "Maps_API_KEY") as [key|]; [|done]. cbn.
  destruct (w_places_post w _) as [response|] eqn:Hp; [|done]. cbn.
  destruct (raise_for_status response) as [[]|] eqn:Hs; [|done]. cbn.
  destruct (json_places response) as [found|] eqn:Hj; [|done]. cbn.
  intros [= <- <-]. by exists key, response, found.
Qed.

Lemma follows_bind_cons {A B : Type} (k : call_kind) (ks : list call_kind)
    (m : script A) (f : A → script B) :
  follows [k] m → (∀ a, follows ks (f a)) → follows (k :: ks) (m ≫= f).
Proof. apply (follows_bind [k] ks). Qed.

(** Decides [follows] for a piece built from the steps of the script. *)
Ltac follows_tac :=
  lazymatch goal with
  | |- follows _ (lift _) => apply follows_lift
  | |- follows _ (mret _) => apply follows_mret
  | |- follows _ (emit (Shown (Warning NO_ELIGIBLE)) ≫= _) =>
      apply warn_and_stop_follows
  | |- follows _ (emit (Shown _)) => by apply follows_show
  | |- follows _ (emit (Called _)) => apply follows_call
  | |- follows _ (fetch_history _) => apply fetch_history_follows
  | |- follows _ (search_places _ _) => apply search_places_follows
  | |- follows _ (append_history_row _ _) => apply append_history_row_follows
  | |- follows _ (create_calendar_event _ _ _ _) =>
      apply create_calendar_event_follows
  | |- follows _ (_ ≫= _) =>
      first [ apply follows_bind_nil; [follows_tac | intros; follows_tac]
            | apply follows_bind_cons; [follows_tac | intros; follows_tac] ]
  | |- follows _ (if ?b then _ else _) => destruct b; follows_tac
  | |- follows _ (match ?x with Some _ => _ | None => _ end) =>
      destruct x; follows_tac
  end.

Lemma bind_lift_inv {A B : Type} (r : result A) (f : A → script B)
    (t : list event) (o : outcome B) :
  lift r ≫= f = (t, o) →
  (∃ a, r = Ok a ∧ f a = (t, o)) ∨ (∃ e, r = Raise e ∧ t = [] ∧ o = Raised e).
Proof.
  destruct r as [a|e]; cbn.
  - destruct (f a) as [t' o'] eqn:Hf. intros [= <- <-]. left. by exists a.
  - intros [= <- <-]. right. by exists e.
Qed.

Lemma append_history_row_called (w : world) (row row' : list value) (sid : secret) :
  Called (SheetsAppend sid row) ∈ (append_history_row w row').1 →
  row = row' ∧ st_secret w "SPREADSHEET_ID" = Ok sid.
Proof.
  unfold append_history_row.
  destruct (st_secret w "SPREADSHEET_ID") as [sid'|]; cbn;
    [|by intros ?%elem_of_nil].
  destruct (w_sheets_append w row'); cbn;
    by intros [= <- <-]%list_elem_of_singleton.
Qed.

(** A row is appended to the log only after every earlier step has
    returned, and it is the row of the chosen place. *)
Lemma roll_the_dice_appended (rt : runtime) (w : world) (sid : secret)
    (row : list value) :
  Called (SheetsAppend sid row) ∈ (roll_the_dice rt w).1 →
  ∃ cuisine monday history_ids places chosen t1 t2,
    random_choice (w_randbelow_cuisine w) CUISINES = Ok cuisine
    ∧ get_next_monday_date (dt_date (w_now_monday w)) = Ok monday
    ∧ build_google_clients rt w = Ok ()
    ∧ fetch_history w = (t1, Returned history_ids)
    ∧ search_places w cuisine = (t2, Returned places)
    ∧ choose_place (w_randbelow_place w) places history_ids = Ok (Some chosen)
    ∧ format_history_row rt (w_now_row w) chosen cuisine monday = Ok row
    ∧ st_secret w "SPREADSHEET_ID" = Ok sid.
Proof.
  destruct (roll_the_dice rt w) as [t o] eqn:Hrun. cbn [fst]. intros Hin.
  unfold roll_the_dice in Hrun.
  apply bind_lift_inv in Hrun as [(cuisine & Hc & Hrun) | (e & _ & -> & _)];
    [|by apply elem_of_nil in Hin].
  apply bind_lift_inv in Hrun as [(monday & Hm & Hrun) | (e & _ & -> & _)];
    [|by apply elem_of_nil in Hin].
  apply bind_lift_inv in Hrun as [([] & Hb & Hrun) | (e & _ & -> & _)];
    [|by apply elem_of_nil in Hin].
  pose proof (fetch_history_follows w) as Hff.
  apply script_bind_inv in Hrun
    as [(t1 & history_ids & t' & Hfetch & Hrun & ->) | [(e & Hfetch & ->) | (Hfetch & ->)]].
  2,3: rewrite Hfetch in Hff;
       by apply (follows_called _ _ _ Hff), list_elem_of_singleton in Hin.
  rewrite Hfetch in Hff. apply elem_of_app in Hin as [Hin|Hin];
    [by apply (follows_called _ _ _ Hff), list_elem_of_singleton in Hin|].
  pose proof (search_places_follows w cuisine) as Hsf.
  apply script_bind_inv in Hrun
    as [(t2 & places & t'' & Hsearch & Hrun & ->) | [(e & Hsearch & ->) | (Hsearch & ->)]].
  2,3: rewrite Hsearch in Hsf;
       by apply (follows_called _ _ _ Hsf), list_elem_of_singleton in Hin.
  rewrite Hsearch in Hsf. apply elem_of_app in Hin as [Hin|Hin];
    [by apply (follows_called _ _ _ Hsf), list_elem_of_singleton in Hin|].
  apply bind_lift_inv in Hrun as [(chosen & Hch & Hrun) | (e & _ & -> & _)];
    [|by apply elem_of_nil in Hin].
  assert (Hstop : ∀ t3 o3, (emit (Shown (Warning NO_ELIGIBLE));; st_stop) = (t3, o3) →
            Called (SheetsAppend sid row) ∉ t3).
  { intros t3 o3 [= <- _]. by intros [=]%list_elem_of_singleton. }
  destruct chosen as [chosen|]; [|by destruct (Hstop _ _ Hrun)].
  destruct (negb (truthy (VDict chosen))); [by destruct (Hstop _ _ Hrun)|].
  apply bind_lift_inv in Hrun as [(row' & Hrow & Hrun) | (e & _ & -> & _)];
    [|by apply elem_of_nil in Hin].
  assert (Hfrom : Called (SheetsAppend sid row) ∈ (append_history_row w row').1).
  { apply script_bind_inv in Hrun
      as [(t3 & [] & t4 & Happ & Hrun & ->) | [(e & Happ & ->) | (Happ & ->)]];
      rewrite Happ; cbn [fst]; [|done..].
    apply elem_of_app in Hin as [Hin|Hin]; [done|].
    match type of Hrun with
    | ?rest = _ =>
        assert (Hrest : follows [KCalendarInsert] rest)
          by (cbv beta zeta; follows_tac);
        rewrite Hrun in Hrest
    end.
    by apply (follows_called _ _ _ Hrest), list_elem_of_singleton in Hin. }
  apply append_history_row_called in Hfrom as [-> Hsid].
  by exists cuisine, monday, history_ids, places, chosen, t1, t2.
Qed.

Lemma bind_lift_ok {A B : Type} (a : A) (f : A → script B) :
  lift (Ok a) ≫= f = f a.
Proof. cbn. by destruct (f a). Qed.

Lemma format_history_row_inv (rt : runtime) (timestamp : datetime) (place : dict)
    (cuisine : string) (event_date : date) (row : list value) :
  format_history_row rt timestamp place cuisine event_date = Ok row →
  ∃ name, get_place_name place = Ok name
    ∧ row = [ VStr (datetime_isoformat rt timestamp);
              VStr (date_isoformat event_date);
              VStr cuisine;
              name;
              dict_get place "id" (VStr "");
              VStr (py_str rt (dict_get place "rating" (VStr "")));
              VStr (py_str rt (dict_get place "userRatingCount" (VStr "")));
              VStr (py_str rt (dict_get place "priceLevel" (VStr "")));
              dict_get place "formattedAddress" (VStr "");
              dict_get place "googleMapsUri" (VStr "") ].
Proof.
  unfold format_history_row. destruct (get_place_name place) as [name|]; [|done].
  intros [= <-]. by exists name.
Qed.

(** The identifier of a kept place is present, and is no member of the
    exclusion set. *)
Lemma choose_place_keeps_identifier (history_ids : gset string) (p : dict) :
  choose_place_keeps history_ids p = Ok true →
  ∃ v, p !! "id" = Some v ∧ truthy v = true ∧ ∀ s, v = VStr s → s ∉ history_ids.
Proof.
  intros (Ht & Hin & _)%choose_place_keeps_true. unfold dict_get in *.
  destruct (p !! "id") as [v|]; [|done]. exists v. split; [done|]. split; [done|].
  intros s ->. cbn in Hin. injection Hin as Hin.
  by apply bool_decide_eq_false in Hin.
Qed.

Lemma app_called (rt : runtime) (w : world) (c : call) :
  Called c ∈ (app rt w).1 → Called c ∈ (roll_the_dice rt w).1.
Proof.
  unfold app. destruct (w_button w).
  - destruct (roll_the_dice rt w) as [t [[]|e|]]; cbn.
    + by intros [[=]|?]%elem_of_cons.
    + intros [[=]|[?|[=]%list_elem_of_singleton]%elem_of_app]%elem_of_cons. done.
    + by intros [[=]|?]%elem_of_cons.
  - cbn. by intros [=]%list_elem_of_singleton.
Qed.

Lemma button_handler_error_outcomes_witness :
  ∃ msg, search_places forbidden_world "Thai"
         = ([Called (PlacesPost (SecretStr "key") "Thai food near 92117")],
            Raised (HTTPError msg)).
Proof.
  apply (proj2 (proj2 (proj2 (button_handler_error_outcomes sample_runtime forbidden_world)))
           "Thai" (SecretStr "key") (HttpResponse 403 "Forbidden" (Ok None))).
  - reflexivity.
  - reflexivity.
  - cbn. lia.
Defined.

(** ** Places already in the history *)

(** C5.  Whatever the list of places, the random draw and the history set:
    a place whose identifier is in the history set is never what
    [choose_place] returns.  Over the whole run: a row appended to the log
    never carries an identifier that is in the set
    [fetch_history_place_ids] built from the log read in that run. *)
Theorem history_place_never_selected :
  (∀ (randbelow : nat → nat) (places : list dict) (history_ids : gset string)
     (p : dict) (s : string),
      p !! "id" = Some (VStr s) → s ∈ history_ids →
      choose_place randbelow places history_ids ≠ Ok (Some p))
  ∧ (∀ (rt : runtime) (w : world) (values : option (list (list string)))
       (ids : gset string) (sid : secret) (row : list value) (s : string),
      w_sheets_get w = Ok values →
      fetch_history_place_ids values = Ok ids →
      Called (SheetsAppend sid row) ∈ (app rt w).1 →
      row !! 4%nat = Some (VStr s) →
      s ∉ ids).
Proof.
  split.
  - intros randbelow places history_ids p s Hid Hs [_ Hk]%choose_place_Some_keeps.
    apply choose_place_keeps_identifier in Hk as (v & Hv & _ & Hnot).
    rewrite Hid in Hv. injection Hv as <-. by apply (Hnot s).
  - intros rt w values ids sid row s Hget Hids Hc%app_called Hrow.
    apply roll_the_dice_appended in Hc
      as (cuisine & monday & history_ids & places & chosen & t1 & t2
          & _ & _ & _ & Hfetch & _ & Hchoose & Hformat & _).
    apply fetch_history_returned in Hfetch as (? & values' & _ & _ & Hget' & Hids').
    rewrite Hget in Hget'. injection Hget' as <-.
    rewrite Hids in Hids'. injection Hids' as <-.
    apply choose_place_Some_keeps in Hchoose as [_ Hk].
    apply choose_place_keeps_identifier in Hk as (v & Hv & _ & Hnot).
    apply format_history_row_inv in Hformat as (name & _ & ->).
    cbn in Hrow. injection Hrow as Hrow.
    rewrite (dict_get_lookup _ _ _ _ Hv) in Hrow. by apply Hnot.
Qed.

Lemma history_place_never_selected_witness :
  seen_place !! "id" = Some (VStr "ChIJseen")
  ∧ choose_place (λ _, 0%nat) [seen_place; thai_place] {["ChIJseen"]}
    ≠ Ok (Some seen_place).
Proof.
  split; [reflexivity|].
  apply (proj1 history_place_never_selected (λ _, 0%nat) [seen_place; thai_place]
           {["ChIJseen"]} seen_place "ChIJseen").
  - reflexivity.
  - by apply elem_of_singleton.
Defined.

(** ** No eligible place *)

(** C2.  When the loop of [choose_place] leaves no survivor, the function
    returns [None] and raises nothing, whatever the random draw.  In a run
    in which the steps before it have returned, the handler then shows the
    warning and stops: no error box, no row appended, no calendar event. *)
Theorem no_survivor_is_a_warning (places : list dict) (history_ids : gset string) :
  eligible_places places history_ids = Ok [] →
  (∀ randbelow, choose_place randbelow places history_ids = Ok None)
  ∧ ∀ (rt : runtime) (w : world) (cuisine : string) (monday : date)
      (t_log t_search : list event),
      random_choice (w_randbelow_cuisine w) CUISINES = Ok cuisine →
      get_next_monday_date (dt_date (w_now_monday w)) = Ok monday →
      build_google_clients rt w = Ok () →
      fetch_history w = (t_log, Returned history_ids) →
      search_places w cuisine = (t_search, Returned places) →
      let run := handle_errors (roll_the_dice rt w) in
      run = (t_log ++ t_search ++ [Shown (Warning NO_ELIGIBLE)], Stopped)
      ∧ shown_errors run.1 = []
      ∧ call_kinds run.1 = [KSheetsGet; KPlacesPost].
Proof.
  intros Hnone.
  assert (Hchoose : ∀ randbelow, choose_place randbelow places history_ids = Ok None).
  { intros randbelow. unfold choose_place. by rewrite Hnone. }
  split; [done|].
  intros rt w cuisine monday t_log t_search Hc Hm Hb Hf Hs run.
  assert (Hrun : run = (t_log ++ t_search ++ [Shown (Warning NO_ELIGIBLE)], Stopped)).
  { subst run. unfold roll_the_dice.
    rewrite Hc, bind_lift_ok, Hm, bind_lift_ok, Hb, bind_lift_ok.
    rewrite (script_bind_returned _ _ _ _ Hf).
    rewrite (script_bind_returned _ _ _ _ Hs).
    by rewrite Hchoose, bind_lift_ok. }
  split; [done|]. rewrite Hrun. cbn [fst].
  apply fetch_history_returned in Hf as (sid & ? & _ & -> & _).
  apply search_places_returned in Hs as (key & ? & ? & _ & -> & _).
  done.
Qed.

Lemma no_survivor_is_a_warning_witness :
  (∀ randbelow, choose_place randbelow [low_place; seen_place] {["ChIJseen"]} = Ok None)
  ∧ handle_errors (roll_the_dice sample_runtime (sample_world [low_place; seen_place]))
    = ([Called (SheetsGet (SecretStr "sheet"));
        Called (PlacesPost (SecretStr "key") "Thai food near 92117");
        Shown (Warning NO_ELIGIBLE)], Stopped).
Proof.
  destruct (no_survivor_is_a_warning [low_place; seen_place] {["ChIJseen"]})
    as [Hnone Hrun]; [vm_compute; reflexivity|].
  split; [exact Hnone|].
  refine (proj1 (Hrun sample_runtime (sample_world [low_place; seen_place]) "Thai"
            (Date 740006) [Called (SheetsGet (SecretStr "sheet"))]
            [Called (PlacesPost (SecretStr "key") "Thai food near 92117")]
            _ _ _ _ _)); vm_compute; reflexivity.
Defined.

(** ** Next Monday *)

Lemma weekday_range (d : date) : 0 <= weekday d < 7.
Proof. unfold weekday. apply Z.mod_pos_bound. lia. Qed.

(** C3, as the code has it.  For every current date up to 9999-12-26 (the
    last date whose following Monday the date type holds),
    [get_next_monday_date] returns a Monday strictly after the date: seven
    days later when the date is a Monday, otherwise the nearest Monday
    after it, one to six days later. *)
Theorem get_next_monday_date_spec (today : date) :
  valid_date today = true →
  toordinal today <= MAXORDINAL - 5 →
  ∃ monday,
    get_next_monday_date today = Ok monday
    ∧ valid_date monday = true
    ∧ weekday monday = 0
    ∧ toordinal today < toordinal monday
    ∧ (weekday today = 0 → toordinal monday = toordinal today + 7)
    ∧ (weekday today ≠ 0 → 1 <= toordinal monday - toordinal today <= 6)
    ∧ (weekday today ≠ 0 → ∀ d, toordinal today < toordinal d < toordinal monday →
                                 weekday d ≠ 0).
Proof.
  unfold valid_date, get_next_monday_date, date_add_days, weekday, MAXORDINAL.
  destruct today as [o]. cbn [toordinal].
  rewrite andb_true_iff, Z.leb_le, Z.leb_le. intros [Hlo _] Hhi.
  set (r := (o + 6) mod 7).
  assert (Hr : 0 <= r < 7) by (apply Z.mod_pos_bound; lia).
  assert (Hdays : (0 - r) mod 7 = if r =? 0 then 0 else 7 - r).
  { destruct (Z.eqb_spec r 0) as [->|Hne]; [reflexivity|].
    symmetry. apply (Z.mod_unique_pos _ _ (-1)); lia. }
  rewrite Hdays. clear Hdays.
  (* the step taken, and the Monday it reaches *)
  set (step := if (if r =? 0 then 0 else 7 - r) =? 0 then 7 else
               (if r =? 0 then 0 else 7 - r)).
  assert (Hstep : step = 7 - r ∨ (r = 0 ∧ step = 7)).
  { subst step. destruct (Z.eqb_spec r 0) as [->|Hne]; [by right|].
    destruct (Z.eqb_spec (7 - r) 0); [lia|by left]. }
  assert (Hstep' : step = 7 - r) by (destruct Hstep as [?|[? ?]]; lia).
  clear Hstep.
  assert (Ho : o + 6 = 7 * ((o + 6) / 7) + r) by (apply Z.div_mod; lia).
  assert (Hmon : (o + step + 6) mod 7 = 0).
  { apply Z.mod_divide; [lia|]. exists ((o + 6) / 7 + 1). lia. }
  (* the last Monday of the date type is ordinal 3652055 *)
  assert (Hfit : o + step <= 3652059).
  { apply Z.mod_divide in Hmon as [k Hk]; lia. }
  replace (0 <? o + step) with true by (symmetry; apply Z.ltb_lt; lia).
  replace (o + step <=? 3652059) with true by (symmetry; apply Z.leb_le; lia).
  cbn [andb]. eexists. split; [reflexivity|]. cbn [toordinal].
  split; [apply andb_true_iff; rewrite !Z.leb_le; lia|].
  split; [done|]. split; [lia|]. split; [lia|]. split; [lia|].
  intros Hw [d] [Hd1 Hd2] Hd0. cbn [toordinal] in *.
  apply Z.mod_divide in Hd0 as [k' Hk']; lia.
Qed.

Lemma get_next_monday_date_spec_witness :
  ∃ monday,
    get_next_monday_date (Date 739999) = Ok monday
    ∧ valid_date monday = true
    ∧ weekday monday = 0
    ∧ toordinal (Date 739999) < toordinal monday
    ∧ (weekday (Date 739999) = 0 → toordinal monday = toordinal (Date 739999) + 7)
    ∧ (weekday (Date 739999) ≠ 0 → 1 <= toordinal monday - toordinal (Date 739999) <= 6)
    ∧ (weekday (Date 739999) ≠ 0 →
       ∀ d, toordinal (Date 739999) < toordinal d < toordinal monday → weekday d ≠ 0).
Proof.
  apply (get_next_monday_date_spec (Date 739999)); [reflexivity|].
  vm_compute. discriminate.
Defined.

(** C3 as stated fails: 9999-12-27 is a valid date and a Monday, and the
    Monday seven days later is beyond the largest date. *)
Lemma get_next_monday_date_overflow :
  valid_date (Date 3652055) = true
  ∧ weekday (Date 3652055) = 0
  ∧ get_next_monday_date (Date 3652055) = Raise (OverflowError "date value out of range")
  ∧ ¬ ∃ monday, get_next_monday_date (Date 3652055) = Ok monday.
Proof.
  split; [reflexivity|]. split; [reflexivity|]. split; [reflexivity|].
  by intros [monday [=]].
Qed.

(** ** The name of a place *)

Lemma get_place_name_text (place : dict) :
  field_is is_dict place "displayName" = true →
  get_place_name place = Ok (place_name_text place).
Proof.
  unfold field_is, get_place_name, place_name_text, dict_get.
  by destruct (place !! "displayName") as [[| | | | | |d]|].
Qed.

(** ** The row of the history log *)

(** C4, as the code has it.  For every place whose display name, when
    present, is an object, every cuisine, event date and clock reading,
    [format_history_row] returns exactly ten fields, in the order:
    timestamp, event date, cuisine, place name (the text of the display
    name, or "Unknown Restaurant"), place identifier, rating, review
    count, price tier, address, map link. *)
Theorem format_history_row_ten_fields (rt : runtime) (timestamp : datetime)
    (place : dict) (cuisine : string) (event_date : date) :
  field_is is_dict place "displayName" = true →
  ∃ row,
    get_place_name place = Ok (place_name_text place)
    ∧ format_history_row rt timestamp place cuisine event_date = Ok row
    ∧ length row = 10%nat
    ∧ row !! 0%nat = Some (VStr (datetime_isoformat rt timestamp))
    ∧ row !! 1%nat = Some (VStr (date_isoformat event_date))
    ∧ row !! 2%nat = Some (VStr cuisine)
    ∧ row !! 3%nat = Some (place_name_text place)
    ∧ row !! 4%nat = Some (dict_get place "id" (VStr ""))
    ∧ row !! 5%nat = Some (VStr (py_str rt (dict_get place "rating" (VStr ""))))
    ∧ row !! 6%nat = Some (VStr (py_str rt (dict_get place "userRatingCount" (VStr ""))))
    ∧ row !! 7%nat = Some (VStr (py_str rt (dict_get place "priceLevel" (VStr ""))))
    ∧ row !! 8%nat = Some (dict_get place "formattedAddress" (VStr ""))
    ∧ row !! 9%nat = Some (dict_get place "googleMapsUri" (VStr "")).
Proof.
  intros Hname%get_place_name_text.
  unfold format_history_row. rewrite Hname. cbn [mbind result_bind].
  eexists. split; [done|]. split; [reflexivity|]. repeat split.
Qed.

Lemma format_history_row_ten_fields_witness :
  ∃ row,
    get_place_name thai_place = Ok (place_name_text thai_place)
    ∧ format_history_row sample_runtime (DateTime (Date 739999) 10 0 1 0)
        thai_place "Thai" (Date 740006) = Ok row
    ∧ length row = 10%nat
    ∧ row !! 0%nat = Some (VStr (datetime_isoformat sample_runtime
                                   (DateTime (Date 739999) 10 0 1 0)))
    ∧ row !! 1%nat = Some (VStr (date_isoformat (Date 740006)))
    ∧ row !! 2%nat = Some (VStr "Thai")
    ∧ row !! 3%nat = Some (VStr "Thai Garden")
    ∧ row !! 4%nat = Some (dict_get thai_place "id" (VStr ""))
    ∧ row !! 5%nat = Some (VStr (py_str sample_runtime (dict_get thai_place "rating" (VStr ""))))
    ∧ row !! 6%nat = Some (VStr (py_str sample_runtime
                                   (dict_get thai_place "userRatingCount" (VStr ""))))
    ∧ row !! 7%nat = Some (VStr (py_str sample_runtime
                                   (dict_get thai_place "priceLevel" (VStr ""))))
    ∧ row !! 8%nat = Some (dict_get thai_place "formattedAddress" (VStr ""))
    ∧ row !! 9%nat = Some (dict_get thai_place "googleMapsUri" (VStr "")).
Proof.
  apply (format_history_row_ten_fields sample_runtime (DateTime (Date 739999) 10 0 1 0)
           thai_place "Thai" (Date 740006)).
  reflexivity.
Defined.

(** C4 as stated, for every place, fails where the display name is no
    object: such a place can pass the filter, and for it
    [format_history_row] raises an [AttributeError] and returns no row. *)
Lemma format_history_row_needs_name_object :
  choose_place_keeps ∅ string_name_place = Ok true
  ∧ format_history_row sample_runtime (DateTime (Date 739999) 10 0 1 0)
      string_name_place "Thai" (Date 740006)
    = Raise (AttributeError "'str' object has no attribute 'get'")
  ∧ ¬ ∃ row, format_history_row sample_runtime (DateTime (Date 739999) 10 0 1 0)
               string_name_place "Thai" (Date 740006) = Ok row.
Proof.
  split; [vm_compute; reflexivity|]. split; [reflexivity|]. by intros [row [=]].
Qed.

(** ** The calendar event *)

Lemma format_time_evening (hour : Z) :
  format_time hour 0 0 0 = zero_pad 2 hour +:+ ":00:00".
Proof. reflexivity. Qed.




(** ** Places without a rating or a review count *)

Lemma py_lt_zero_MIN_RATING : py_lt (VInt 0) MIN_RATING = Ok true.
Proof. reflexivity. Qed.

Lemma py_lt_zero_MIN_REVIEWS : py_lt (VInt 0) MIN_REVIEWS = Ok true.
Proof. reflexivity. Qed.

(** C9.  A place without a rating is treated as one with rating 0, a place
    without a review count as one with review count 0: the turn of the loop
    ends the same way, and it never keeps the place.  Such a place is never
    what [choose_place] returns, whatever the list of places, the
    exclusion set and the random draw. *)
Theorem absent_rating_or_reviews_never_selected (place : dict) :
  place !! "rating" = None ∨ place !! "userRatingCount" = None →
  (place !! "rating" = None →
   ∀ history_ids, choose_place_keeps history_ids place
                  = choose_place_keeps history_ids (<["rating" := VInt 0]> place))
  ∧ (place !! "userRatingCount" = None →
     ∀ history_ids, choose_place_keeps history_ids place
                    = choose_place_keeps history_ids (<["userRatingCount" := VInt 0]> place))
  ∧ (∀ history_ids, choose_place_keeps history_ids place ≠ Ok true)
  ∧ ∀ randbelow places history_ids,
      choose_place randbelow places history_ids ≠ Ok (Some place).
Proof.
  intros Habsent.
  assert (Hnever : ∀ history_ids, choose_place_keeps history_ids place ≠ Ok true).
  { intros history_ids (_ & _ & Hrating & Hreviews)%choose_place_keeps_true.
    destruct Habsent as [Hr|Hr]; rewrite (dict_get_absent _ _ _ Hr) in *; done. }
  split; [|split; [|split; [done|]]].
  - intros Hr history_ids. unfold choose_place_keeps, dict_get.
    rewrite lookup_insert_eq, !lookup_insert_ne, Hr by done. done.
  - intros Hr history_ids. unfold choose_place_keeps, dict_get.
    rewrite lookup_insert_eq, !lookup_insert_ne, Hr by done. done.
  - intros randbelow places history_ids [_ Hk]%choose_place_Some_keeps.
    by apply (Hnever history_ids).
Qed.

Lemma absent_rating_or_reviews_never_selected_witness :
  low_place !! "userRatingCount" = None
  ∧ ∀ randbelow places history_ids,
      choose_place randbelow places history_ids ≠ Ok (Some low_place).
Proof.
  split; [reflexivity|].
  apply (absent_rating_or_reviews_never_selected low_place).
  right. reflexivity.
Defined.

(** ** The random pick *)

Lemma List_filter_Permutation {A : Type} (f : A → bool) (l1 l2 : list A) :
  l1 ≡ₚ l2 → List.filter f l1 ≡ₚ List.filter f l2.
Proof.
  induction 1 as [|x l1 l2 _ IH|x y l|l1 l2 l3 _ IH1 _ IH2]; cbn.
  - done.
  - destruct (f x); [by constructor|done].
  - destruct (f x), (f y); try done. apply perm_swap.
  - by etrans.
Qed.

(** The draws [0 .. len(seq) - 1] select the members of the sequence one
    by one. *)
Lemma random_choice_draws {A : Type} (xs : list A) :
  (λ k, random_choice (λ _, k) xs) <$> seq 0%nat (length xs) = Ok <$> xs.
Proof.
  apply list_eq. intros i. rewrite !list_lookup_fmap.
  destruct (decide (i < length xs)%nat) as [Hi|Hi].
  - rewrite lookup_seq_lt by done. cbn.
    destruct (lookup_lt_is_Some_2 xs i Hi) as [x Hx]. rewrite Hx. cbn.
    unfold random_choice. destruct xs; [done|]. by rewrite Hx.
  - rewrite lookup_seq_ge by lia. rewrite lookup_ge_None_2 by lia. done.
Qed.

(** C6.  With at least one survivor, [choose_place] returns the survivor at
    the position the generator draws, which is a member of the survivor
    list.  Over the [n] draws [0 .. n-1], which [random.choice] makes
    equally likely, the places returned are the [n] survivors, each
    position once: the pick is uniform over the survivors.  The order of
    the places does not matter: a reordered list has the same survivors. *)
Theorem choose_place_uniform_pick (places : list dict) (history_ids : gset string)
    (eligible : list dict) :
  eligible_places places history_ids = Ok eligible →
  eligible ≠ [] →
  (∀ randbelow,
      (randbelow (length eligible) < length eligible)%nat →
      ∃ p, choose_place randbelow places history_ids = Ok (Some p)
           ∧ eligible !! randbelow (length eligible) = Some p
           ∧ p ∈ eligible)
  ∧ (∀ randbelow p,
      choose_place randbelow places history_ids = Ok (Some p) → p ∈ eligible)
  ∧ (λ k, choose_place (λ _, k) places history_ids) <$> seq 0%nat (length eligible)
    = (λ p, Ok (Some p)) <$> eligible
  ∧ ∀ places', places' ≡ₚ places →
      ∃ eligible', eligible_places places' history_ids = Ok eligible'
                   ∧ eligible' ≡ₚ eligible.
Proof.
  intros He Hne. split; [|split; [|split]].
  - intros randbelow Hlt. unfold choose_place. rewrite He. cbn [mbind result_bind].
    destruct eligible as [|q qs] eqn:Hl; [done|]. rewrite <- Hl in *.
    destruct (lookup_lt_is_Some_2 eligible _ Hlt) as [p Hp].
    exists p. unfold random_choice. rewrite Hl, <- Hl, Hp. cbn.
    split; [done|]. split; [done|]. by eapply list_elem_of_lookup_2.
  - intros randbelow p (eligible' & He' & Hp)%choose_place_Some.
    rewrite He in He'. by injection He' as <-.
  - unfold choose_place. rewrite He. cbn [mbind result_bind].
    destruct eligible as [|q qs] eqn:Hl; [done|]. rewrite <- Hl.
    transitivity ((λ r : result dict, chosen ← r; Ok (Some chosen))
                    <$> ((λ k, random_choice (λ _, k) eligible)
                           <$> seq 0%nat (length eligible))).
    { by rewrite <- list_fmap_compose. }
    rewrite random_choice_draws, <- list_fmap_compose. done.
  - intros places' Hperm.
    apply eligible_places_inv in He as Hinv. destruct Hinv as (_ & _ & Hall).
    set (keep := λ p, match choose_place_keeps history_ids p with
                      | Ok b => b | Raise _ => false end).
    assert (Hkeep : ∀ l, Forall (λ p, ∃ b, choose_place_keeps history_ids p = Ok b) l →
              Forall (λ p, choose_place_keeps history_ids p = Ok (keep p)) l).
    { intros l Hl. eapply Forall_impl; [exact Hl|].
      intros p [b Hb]. unfold keep. by rewrite Hb. }
    exists (List.filter keep places'). split.
    + unfold eligible_places. rewrite (choose_place_loop_filter _ keep); [done|].
      apply Hkeep. by rewrite Hperm.
    + unfold eligible_places in He.
      rewrite (choose_place_loop_filter _ keep) in He by by apply Hkeep.
      injection He as <-. by apply List_filter_Permutation.
Qed.

Lemma choose_place_uniform_pick_witness :
  (λ k, choose_place (λ _, k) [thai_place; low_place; seen_place] ∅) <$> seq 0%nat 2%nat
  = [Ok (Some thai_place); Ok (Some seen_place)].
Proof.
  apply (choose_place_uniform_pick [thai_place; low_place; seen_place] ∅
           [thai_place; seen_place]).
  - vm_compute. reflexivity.
  - discriminate.
Defined.

(** ** The identifiers of the history log *)

(** Widening a row with nulls does not change the cells it has. *)
Lemma cell_at_pad_row (width : nat) (row : list string) (i : nat) :
  cell_at (pad_row width row) i = row !! i.
Proof.
  unfold cell_at, pad_row. destruct (decide (i < length row)%nat) as [Hi|Hi].
  - rewrite lookup_app_l by by rewrite length_fmap.
    rewrite list_lookup_fmap. by destruct (row !! i).
  - rewrite (lookup_ge_None_2 row) by lia.
    rewrite lookup_app_r by (rewrite length_fmap; lia).
    destruct (replicate _ None !! _) as [c|] eqn:Hc; [|done].
    by apply lookup_replicate in Hc as [-> _].
Qed.

Lemma label_positions_spec (key : string) (columns : list string) (start j : nat) :
  j ∈ label_positions key columns start ↔
  (start <= j)%nat ∧ columns !! (j - start)%nat = Some key.
Proof.
  revert start. induction columns as [|c rest IH]; intros start; cbn [label_positions].
  - rewrite elem_of_nil, lookup_nil. split; [done|by intros [_ [=]]].
  - rewrite elem_of_app, IH. case_bool_decide as Hc.
    + rewrite list_elem_of_singleton. split.
      * intros [->|[Hle Hl]].
        -- rewrite Nat.sub_diag. cbn. by rewrite Hc.
        -- split; [lia|]. by replace (j - start)%nat with (S (j - S start)) by lia.
      * intros [Hle Hl]. destruct (decide (j = start)) as [->|Hne]; [by left|].
        right. split; [lia|].
        by replace (j - start)%nat with (S (j - S start)) in Hl by lia.
    + rewrite elem_of_nil. split.
      * intros [[]|[Hle Hl]]. split; [lia|].
        by replace (j - start)%nat with (S (j - S start)) by lia.
      * intros [Hle Hl]. right.
        destruct (decide (j = start)) as [->|Hne].
        -- rewrite Nat.sub_diag in Hl. cbn in Hl. congruence.
        -- split; [lia|].
           by replace (j - start)%nat with (S (j - S start)) in Hl by lia.
Qed.

Lemma label_positions_NoDup (key : string) (columns : list string) (start : nat) :
  NoDup (label_positions key columns start).
Proof.
  revert start. induction columns as [|c rest IH]; intros start; cbn [label_positions].
  - constructor.
  - case_bool_decide; cbn; [|apply IH]. constructor; [|apply IH].
    intros [Hle _]%label_positions_spec. lia.
Qed.

(** A label that occurs at position [i] and nowhere else. *)
Lemma label_positions_unique (key : string) (columns : list string) (i : nat) :
  columns !! i = Some key →
  (∀ j, columns !! j = Some key → j = i) →
  label_positions key columns 0 = [i].
Proof.
  intros Hi Huniq.
  pose proof (label_positions_NoDup key columns 0) as Hnodup.
  assert (Hmem : ∀ j, j ∈ label_positions key columns 0 ↔ j = i).
  { intros j. rewrite label_positions_spec, Nat.sub_0_r. split.
    - intros [_ Hj]. by apply Huniq.
    - intros ->. split; [lia|done]. }
  destruct (label_positions key columns 0) as [|a [|b rest]].
  - pose proof (proj2 (Hmem i) eq_refl) as Hnil. by apply elem_of_nil in Hnil.
  - f_equal. apply Hmem. by left.
  - assert (a = i) by (apply Hmem; by left).
    assert (b = i) by (apply Hmem; right; by left).
    apply NoDup_cons in Hnodup as [Hnot _]. destruct Hnot. subst. by left.
Qed.

Lemma label_positions_absent (key : string) (columns : list string) :
  key ∉ columns → label_positions key columns 0 = [].
Proof.
  intros Hnot. destruct (label_positions key columns 0) as [|j rest] eqn:Hl; [done|].
  assert (Hj : j ∈ label_positions key columns 0) by (rewrite Hl; by left).
  apply label_positions_spec in Hj as [_ Hj].
  destruct Hnot. by eapply list_elem_of_lookup_2.
Qed.

(** The values a series keeps after [dropna], as a set. *)
Lemma py_set_dropna_series (cells : list (option string)) :
  py_set (astype_str (dropna (Series cells))) = list_to_set (omap id cells).
Proof.
  unfold astype_str, dropna, py_set. f_equal.
  induction cells as [|c cells IH]; [done|].
  rewrite filter_cons. destruct (decide (is_Some c)) as [[x ->]|Hc].
  - cbn. by rewrite IH.
  - destruct c as [x|]; [by destruct Hc; eexists|]. cbn. exact IH.
Qed.

Lemma omap_id_fmap {A B : Type} (f : A → option B) (l : list A) :
  omap id (f <$> l) = omap f l.
Proof. induction l as [|x l IH]; [done|]. cbn. rewrite IH. by destruct (f x). Qed.

(** The frame of a log whose widest data row is as wide as the header (or
    that has no data row). *)
Lemma pd_DataFrame_rectangular (data : list (list string)) (columns : list string) :
  data = [] ∨ max_list (length <$> data) = length columns →
  ∃ rows, pd_DataFrame data columns = Ok (Frame columns rows)
    ∧ ∀ i, (λ row, cell_at row i) <$> rows = (λ row : list string, row !! i) <$> data.
Proof.
  intros [->|Hw].
  - by exists [].
  - destruct data as [|d ds] eqn:Hd; [by exists []|]. rewrite <- Hd in *.
    exists (pad_row (max_list (length <$> data)) <$> data). split.
    + unfold pd_DataFrame. rewrite Hd, <- Hd. by rewrite bool_decide_eq_true_2.
    + intros i. rewrite <- list_fmap_compose. apply list_fmap_ext.
      intros _ row _. cbn. apply cell_at_pad_row.
Qed.

Lemma fetch_history_place_ids_rows (header : list string) (data : list (list string)) :
  fetch_history_place_ids (Some (header :: data))
  = df ← pd_DataFrame data header;
    if negb (bool_decide (HISTORY_ID_COLUMN ∈ df_columns df)) then Ok ∅
    else column ← df_getitem df HISTORY_ID_COLUMN;
         Ok (py_set (astype_str (dropna column))).
Proof. reflexivity. Qed.

(** C10, as the code has it.  [fetch_history_place_ids] returns the empty
    set when the read yields no rows.  When the log has no data row, or its
    widest data row has as many cells as the header, it returns the empty
    set if the header has no column [Google Place ID], and, if the header
    has that column exactly once, exactly the set of the non-null cells of
    that column in the data rows, the header row left out. *)
Theorem fetch_history_place_ids_spec :
  fetch_history_place_ids None = Ok ∅
  ∧ fetch_history_place_ids (Some []) = Ok ∅
  ∧ ∀ (header : list string) (data : list (list string)),
      data = [] ∨ max_list (length <$> data) = length header →
      (HISTORY_ID_COLUMN ∉ header →
       fetch_history_place_ids (Some (header :: data)) = Ok ∅)
      ∧ ∀ i : nat,
          header !! i = Some HISTORY_ID_COLUMN →
          (∀ j, header !! j = Some HISTORY_ID_COLUMN → j = i) →
          ∃ ids,
            fetch_history_place_ids (Some (header :: data)) = Ok ids
            ∧ ids = list_to_set (omap (λ row : list string, row !! i) data)
            ∧ ∀ s, s ∈ ids ↔ ∃ row, row ∈ data ∧ row !! i = Some s.
Proof.
  split; [done|]. split; [done|]. intros header data Hrect.
  destruct (pd_DataFrame_rectangular data header Hrect) as (rows & Hdf & Hcells).
  split.
  - intros Hnot. rewrite fetch_history_place_ids_rows, Hdf.
    cbn [mbind result_bind df_columns]. by rewrite bool_decide_eq_false_2.
  - intros i Hi Huniq. eexists. split; [|split; [reflexivity|]].
    + rewrite fetch_history_place_ids_rows, Hdf.
      cbn [mbind result_bind df_columns].
      rewrite bool_decide_eq_true_2 by by eapply list_elem_of_lookup_2.
      cbn [negb]. unfold df_getitem. cbn [df_columns df_data].
      rewrite (label_positions_unique _ _ i Hi Huniq). cbn [mbind result_bind].
      by rewrite py_set_dropna_series, Hcells, omap_id_fmap.
    + intros s. rewrite elem_of_list_to_set, list_elem_of_omap. naive_solver.
Qed.

Lemma fetch_history_place_ids_spec_witness :
  ∃ ids,
    fetch_history_place_ids (Some sample_log) = Ok ids
    ∧ ids = list_to_set (omap (λ row : list string, row !! 4%nat) (tail sample_log))
    ∧ ∀ s, s ∈ ids ↔ ∃ row, row ∈ tail sample_log ∧ row !! 4%nat = Some s.
Proof.
  refine (proj2 (proj2 (proj2 fetch_history_place_ids_spec) _ (tail sample_log) _)
            4%nat _ _).
  - right. reflexivity.
  - reflexivity.
  - unfold HISTORY_ID_COLUMN. intros [|[|[|[|[|[|j]]]]]]; cbn; congruence.
Defined.

(** C10 as stated fails on a log whose widest data row and header differ
    in width: the frame cannot be built and the function raises, whether
    the header lacks the column or has it. *)
Lemma fetch_history_place_ids_ragged :
  (HISTORY_ID_COLUMN ∉ ["Timestamp"])
  ∧ fetch_history_place_ids (Some [["Timestamp"]; ["2027-01-11"; "ChIJseen"]])
    = Raise (ValueError "1 columns passed, passed data had 2 columns")
  ∧ HISTORY_ID_COLUMN ∈ ["Timestamp"; "Google Place ID"]
  ∧ fetch_history_place_ids (Some [["Timestamp"; "Google Place ID"]; ["2027-01-11"]])
    = Raise (ValueError "2 columns passed, passed data had 1 columns")
  ∧ ¬ (∀ header data,
         HISTORY_ID_COLUMN ∉ header →
         fetch_history_place_ids (Some (header :: data)) = Ok ∅).
Proof.
  assert (Hnot : HISTORY_ID_COLUMN ∉ ["Timestamp"])
    by by intros [[=]|[]%elem_of_nil]%elem_of_cons.
  split; [done|]. split; [reflexivity|]. split; [right; by left|].
  split; [reflexivity|]. intros Hall.
  specialize (Hall ["Timestamp"] [["2027-01-11"; "ChIJseen"]] Hnot).
  discriminate Hall.
Qed.

(** * Further properties of the code *)

(** ** [get_place_name] *)

(** X1.  [get_place_name] returns the [text] of the display name;
    "Unknown Restaurant" when the place has no display name or the display
    name has no [text]; and raises an [AttributeError], returning nothing,
    exactly when the display name is present and is no object. *)
Theorem get_place_name_cases (place : dict) :
  (place !! "displayName" = None →
   get_place_name place = Ok (VStr "Unknown Restaurant"))
  ∧ (∀ d, place !! "displayName" = Some (VDict d) →
          get_place_name place = Ok (default (VStr "Unknown Restaurant") (d !! "text")))
  ∧ (∀ v, place !! "displayName" = Some v → is_dict v = false →
          get_place_name place
          = Raise (AttributeError ("'" +:+ type_name v +:+ "' object has no attribute 'get'")))
  ∧ ((∃ e, get_place_name place = Raise e) ↔
     ∃ v, place !! "displayName" = Some v ∧ is_dict v = false).
Proof.
  unfold get_place_name, dict_get. split; [by intros ->|].
  split; [intros d ->; by destruct (d !! "text")|].
  split; [intros v -> Hv; by destruct v|].
  destruct (place !! "displayName") as [v|].
  - destruct v; split; try (intros [e [=]]; eauto; fail);
      try (intros _; eauto; fail); by intros (v & [= <-] & [=]).
  - split; [by intros [e [=]]|by intros (v & [=] & _)].
Qed.

(** ** More on the loop of [choose_place] *)

(** X2.  Whatever the fields of the places hold: when the loop of
    [choose_place] returns, the survivors are a sublist of the input (its
    places, in their input order), and a place that [choose_place] returns
    is one of the input. *)
Theorem eligible_places_sublist (places eligible : list dict) (history_ids : gset string) :
  eligible_places places history_ids = Ok eligible →
  eligible `sublist_of` places
  ∧ ∀ randbelow p, choose_place randbelow places history_ids = Ok (Some p) → p ∈ places.
Proof.
  intros He. split.
  - unfold eligible_places in He.
    assert (Hgen : ∀ ps acc out, choose_place_loop history_ids ps acc = Ok out →
              ∃ kept, out = acc ++ kept ∧ kept `sublist_of` ps).
    { induction ps as [|p ps IH]; intros acc out; cbn [choose_place_loop].
      - intros [= <-]. exists []. by rewrite app_nil_r.
      - destruct (choose_place_keeps history_ids p) as [b|]; [|done]. cbn.
        intros (kept & -> & Hsub)%IH. destruct b.
        + exists (p :: kept). rewrite <- app_assoc. split; [done|].
          by apply sublist_skip.
        + exists kept. split; [done|]. by apply sublist_cons. }
    by apply Hgen in He as (kept & -> & Hsub).
  - intros randbelow p Hp. by apply choose_place_Some_keeps in Hp as [? _].
Qed.

Lemma eligible_places_sublist_witness :
  [thai_place; seen_place] `sublist_of` [thai_place; low_place; seen_place]
  ∧ ∀ randbelow p,
      choose_place randbelow [thai_place; low_place; seen_place] ∅ = Ok (Some p) →
      p ∈ [thai_place; low_place; seen_place].
Proof.
  apply (eligible_places_sublist [thai_place; low_place; seen_place]
           [thai_place; seen_place] ∅).
  vm_compute. reflexivity.
Defined.

(** X3.  Filtering is idempotent: the survivors of a list are all
    survivors of themselves, under the same exclusion set. *)
Theorem eligible_places_idempotent (places eligible : list dict)
    (history_ids : gset string) :
  eligible_places places history_ids = Ok eligible →
  eligible_places eligible history_ids = Ok eligible.
Proof.
  intros (Hkept & _ & _)%eligible_places_inv. unfold eligible_places.
  rewrite (choose_place_loop_filter _ (λ _, true)); [|done].
  cbn. f_equal. induction eligible as [|p ps IH]; [done|]. cbn. f_equal.
  apply IH. by apply Forall_inv_tail in Hkept.
Qed.

Lemma eligible_places_idempotent_witness :
  eligible_places [thai_place; seen_place] ∅ = Ok [thai_place; seen_place].
Proof.
  apply (eligible_places_idempotent [thai_place; low_place; seen_place]).
  vm_compute. reflexivity.
Defined.

Lemma py_in_mono (h h' : gset string) (v : value) (x : bool) :
  h ⊆ h' → py_in v h = Ok x →
  ∃ x', py_in v h' = Ok x' ∧ (x = true → x' = true).
Proof.
  intros Hsub. destruct v; cbn; try done; try (intros [= <-]; eauto; fail).
  intros [= <-]. eexists. split; [done|].
  rewrite !bool_decide_eq_true. apply Hsub.
Qed.

(** How a turn of the loop changes when the exclusion set grows. *)
Lemma choose_place_keeps_mono (h h' : gset string) (p : dict) (b : bool) :
  h ⊆ h' →
  choose_place_keeps h p = Ok b →
  ∃ b', choose_place_keeps h' p = Ok b' ∧ (b' = true → b = true).
Proof.
  intros Hsub. unfold choose_place_keeps.
  destruct (truthy (dict_get p "id" VNone)); cbn [negb];
    [|intros _; by exists false].
  destruct (py_in (dict_get p "id" VNone) h) as [x|] eqn:Hx; [|done].
  destruct (py_in_mono h h' _ x Hsub Hx) as (x' & -> & Himp).
  cbn [mbind result_bind]. destruct x.
  - intros _. rewrite (Himp eq_refl). by exists false.
  - destruct x'; [intros _; by exists false|]. intros Hb. by exists b.
Qed.

(** X4.  A larger exclusion set never adds a survivor and never adds a
    failure: when the loop returns for [h] it returns for every [h']
    that contains [h], and the survivors for [h'] are a sublist of the
    survivors for [h]. *)
Theorem eligible_places_history_mono (places eligible : list dict) (h h' : gset string) :
  h ⊆ h' →
  eligible_places places h = Ok eligible →
  ∃ eligible', eligible_places places h' = Ok eligible'
               ∧ eligible' `sublist_of` eligible.
Proof.
  intros Hsub. unfold eligible_places.
  assert (Hgen : ∀ ps acc acc' out, acc' `sublist_of` acc →
            choose_place_loop h ps acc = Ok out →
            ∃ out', choose_place_loop h' ps acc' = Ok out' ∧ out' `sublist_of` out).
  { induction ps as [|p ps IH]; intros acc acc' out Hacc; cbn [choose_place_loop].
    - intros [= <-]. eauto.
    - destruct (choose_place_keeps h p) as [b|] eqn:Hb; [|done]. cbn.
      destruct (choose_place_keeps_mono h h' p b Hsub Hb) as (b' & -> & Himp). cbn.
      apply IH. destruct b'.
      + rewrite (Himp eq_refl). by apply sublist_app.
      + destruct b; [|done]. rewrite <- (app_nil_r acc').
        apply sublist_app; [done|]. apply sublist_nil_l. }
  by apply Hgen.
Qed.

Lemma eligible_places_history_mono_witness :
  ∃ eligible', eligible_places [thai_place; low_place; seen_place] {["ChIJseen"]}
               = Ok eligible'
               ∧ eligible' `sublist_of` [thai_place; seen_place].
Proof.
  apply (eligible_places_history_mono [thai_place; low_place; seen_place]
           [thai_place; seen_place] ∅ {["ChIJseen"]}).
  - apply empty_subseteq.
  - vm_compute. reflexivity.
Defined.

(** X5.  One place that cannot be judged fails the whole selection: when
    the turns before a place return and its own turn raises,
    [choose_place] raises that exception and returns no place, whatever
    comes after it in the list.  A place with an identifier that is not
    excluded and a rating that is no number (a JSON null or a string, say)
    is such a place: its turn raises a [TypeError]. *)
Theorem choose_place_raises (history_ids : gset string) :
  (∀ before place after e randbelow,
      Forall (λ q, ∃ b, choose_place_keeps history_ids q = Ok b) before →
      choose_place_keeps history_ids place = Raise e →
      choose_place randbelow (before ++ place :: after) history_ids = Raise e)
  ∧ ∀ place s v,
      place !! "id" = Some (VStr s) → s ≠ "" → s ∉ history_ids →
      place !! "rating" = Some v → as_num v = None →
      choose_place_keeps history_ids place
      = Raise (TypeError ("'<' not supported between instances of '"
                          +:+ type_name v +:+ "' and 'float'")).
Proof.
  split.
  - intros before place after e randbelow Hbefore Hplace.
    unfold choose_place, eligible_places.
    assert (Hgen : ∀ acc, choose_place_loop history_ids (before ++ place :: after) acc
                          = Raise e).
    { induction Hbefore as [|q qs [b Hq] _ IH]; intros acc; simpl.
      - by rewrite Hplace.
      - rewrite Hq. apply IH. }
    by rewrite Hgen.
  - intros place s v Hid Hs Hnot Hrating Hnum. unfold choose_place_keeps.
    rewrite (dict_get_lookup _ _ _ _ Hid), (dict_get_lookup _ _ _ _ Hrating).
    cbn [truthy py_in]. apply String.eqb_neq in Hs. rewrite Hs. cbn [negb].
    rewrite bool_decide_eq_false_2 by done. cbn [mbind result_bind].
    unfold py_lt. by rewrite Hnum.
Qed.

Lemma choose_place_raises_witness :
  choose_place (λ _, 0%nat)
    ([thai_place] ++ <["rating" := VNone]> thai_place :: [seen_place]) ∅
  = Raise (TypeError "'<' not supported between instances of 'NoneType' and 'float'").
Proof.
  apply (proj1 (choose_place_raises ∅) [thai_place] (<["rating" := VNone]> thai_place)
           [seen_place]).
  - constructor; [|constructor]. exists true. vm_compute. reflexivity.
  - vm_compute. reflexivity.
Defined.

(** X6.  A place without an identifier, or with an empty one, is skipped
    before its rating and review count are looked at: the turn returns
    [false] and raises nothing, whatever the other fields hold. *)
Theorem choose_place_skips_without_identifier (history_ids : gset string) (place : dict) :
  place !! "id" = None ∨ place !! "id" = Some (VStr "") ∨ place !! "id" = Some VNone →
  choose_place_keeps history_ids place = Ok false.
Proof.
  unfold choose_place_keeps, dict_get. by intros [->|[->| ->]].
Qed.

Lemma choose_place_skips_without_identifier_witness :
  choose_place_keeps ∅ (<["rating" := VStr "five"]> ∅) = Ok false.
Proof.
  apply choose_place_skips_without_identifier. left. reflexivity.
Defined.

(** ** The two thresholds *)

(** X7.  The threshold [MIN_RATING] is the float nearest to 4.2, not 4.2
    itself, yet no rating is judged wrongly because of it: for every
    finite binary64 number and every integer, [rating < MIN_RATING] holds
    exactly when the number is less than 42/10 as a rational; and
    [reviews < MIN_REVIEWS] exactly when it is less than 200. *)
Theorem thresholds_exact (v : value) (q : Q) :
  is_number v = true →
  number_Q v = Some q →
  py_lt v MIN_RATING = Ok (negb (Qle_bool (42 # 10) q))
  ∧ py_lt v MIN_REVIEWS = Ok (negb (Qle_bool (200 # 1) q))
  ∧ (py_lt v MIN_RATING = Ok true ↔ (q < 42 # 10)%Q)
  ∧ (py_lt v MIN_REVIEWS = Ok true ↔ (q < 200 # 1)%Q).
Proof.
  intros Hnum Hq.
  rewrite (lt_MIN_RATING_number v q Hnum Hq), (lt_MIN_REVIEWS_number v q Hq).
  split; [done|]. split; [done|].
  assert (Hlt : ∀ c, Ok (negb (Qle_bool c q)) = Ok true ↔ (q < c)%Q).
  { intros c. destruct (Qle_bool c q) eqn:Hb; cbn [negb].
    - split; [done|]. intros Hlt. apply Qle_bool_iff in Hb.
      by apply Qlt_not_le in Hlt.
    - split; [|done]. intros _. apply Qnot_le_lt. intros Hle%Qle_bool_iff.
      congruence. }
  split; apply Hlt.
Qed.

Lemma thresholds_exact_witness :
  py_lt (VFloat (S754_finite false 4728779608739020 (-50))) MIN_RATING
  = Ok (negb (Qle_bool (42 # 10) (4728779608739020 # 2 ^ 50)))
  ∧ py_lt (VFloat (S754_finite false 4728779608739020 (-50))) MIN_REVIEWS
    = Ok (negb (Qle_bool (200 # 1) (4728779608739020 # 2 ^ 50)))
  ∧ (py_lt (VFloat (S754_finite false 4728779608739020 (-50))) MIN_RATING = Ok true
     ↔ (4728779608739020 # 2 ^ 50 < 42 # 10)%Q)
  ∧ (py_lt (VFloat (S754_finite false 4728779608739020 (-50))) MIN_REVIEWS = Ok true
     ↔ (4728779608739020 # 2 ^ 50 < 200 # 1)%Q).
Proof.
  apply (thresholds_exact (VFloat (S754_finite false 4728779608739020 (-50)))).
  - reflexivity.
  - reflexivity.
Defined.

(** X8.  A rating that is not a number in the IEEE sense (NaN, which the
    JSON decoder accepts) is not below the threshold: a place with such a
    rating, an identifier that is not excluded and at least 200 reviews
    is kept. *)
Theorem choose_place_keeps_nan_rating (history_ids : gset string) (place : dict)
    (s : string) (reviews : Z) :
  place !! "id" = Some (VStr s) → s ≠ "" → s ∉ history_ids →
  place !! "rating" = Some (VFloat S754_nan) →
  place !! "userRatingCount" = Some (VInt reviews) → 200 <= reviews →
  choose_place_keeps history_ids place = Ok true.
Proof.
  intros Hid Hs Hnot Hrating Hreviews Hge. unfold choose_place_keeps.
  rewrite (dict_get_lookup _ _ _ _ Hid), (dict_get_lookup _ _ _ _ Hrating),
    (dict_get_lookup _ _ _ _ Hreviews).
  cbn [truthy py_in]. apply String.eqb_neq in Hs. rewrite Hs. cbn [negb].
  rewrite bool_decide_eq_false_2 by done. cbn.
  unfold num_ltb. cbn. by destruct (Z.compare_spec reviews 200); try lia.
Qed.

Lemma choose_place_keeps_nan_rating_witness :
  choose_place_keeps ∅ (<["rating" := VFloat S754_nan]> thai_place) = Ok true.
Proof.
  apply (choose_place_keeps_nan_rating ∅ (<["rating" := VFloat S754_nan]> thai_place)
           "ChIJthai" 250).
  - reflexivity.
  - discriminate.
  - apply not_elem_of_empty.
  - reflexivity.
  - reflexivity.
  - lia.
Defined.

(** ** More on the next Monday *)

(** What [get_next_monday_date] returns, when it returns. *)
Lemma get_next_monday_date_Ok (today monday : date) :
  get_next_monday_date today = Ok monday →
  toordinal monday = toordinal today + 7 - weekday today
  ∧ weekday monday = 0
  ∧ valid_date monday = true.
Proof.
  unfold get_next_monday_date, date_add_days, valid_date, weekday, MAXORDINAL.
  destruct today as [o]. cbn [toordinal].
  set (r := (o + 6) mod 7).
  assert (Hr : 0 <= r < 7) by (apply Z.mod_pos_bound; lia).
  assert (Hdays : (0 - r) mod 7 = if r =? 0 then 0 else 7 - r).
  { destruct (Z.eqb_spec r 0) as [->|Hne]; [reflexivity|].
    symmetry. apply (Z.mod_unique_pos _ _ (-1)); lia. }
  rewrite Hdays. clear Hdays.
  set (step := if (if r =? 0 then 0 else 7 - r) =? 0 then 7 else
               (if r =? 0 then 0 else 7 - r)).
  assert (Hstep : step = 7 - r).
  { subst step. destruct (Z.eqb_spec r 0) as [->|Hne]; [done|].
    destruct (Z.eqb_spec (7 - r) 0); [lia|done]. }
  destruct (Z.ltb_spec 0 (o + step)); [|done].
  destruct (Z.leb_spec (o + step) 3652059); [|done].
  cbn [andb]. intros [= <-]. cbn [toordinal].
  assert (Ho : o + 6 = 7 * ((o + 6) / 7) + r) by (apply Z.div_mod; lia).
  split; [lia|]. split.
  - apply Z.mod_divide; [lia|]. exists ((o + 6) / 7 + 1). lia.
  - apply andb_true_iff. rewrite !Z.leb_le. lia.
Qed.

(** X9.  [get_next_monday_date] in closed form: it returns the date
    [7 - weekday(today)] days after [today], and every date of one week,
    Monday to Sunday, is sent to the same Monday, the first day of the
    next week.  It raises, and then an [OverflowError], exactly when that
    Monday is past 9999-12-31: for a valid date, from 9999-12-27 on. *)
Theorem get_next_monday_date_closed_form (today : date) :
  valid_date today = true →
  (toordinal today <= MAXORDINAL - 5 →
   get_next_monday_date today = Ok (Date (toordinal today + 7 - weekday today)))
  ∧ (MAXORDINAL - 5 < toordinal today →
     get_next_monday_date today = Raise (OverflowError "date value out of range"))
  ∧ ∀ other monday,
      get_next_monday_date today = Ok monday →
      toordinal today - weekday today = toordinal other - weekday other →
      get_next_monday_date other = Ok monday.
Proof.
  intros Hvalid.
  assert (Hform : ∀ d, get_next_monday_date d
            = date_add_days d (7 - weekday d)).
  { intros d. unfold get_next_monday_date.
    pose proof (weekday_range d) as Hr.
    assert (Hdays : (0 - weekday d) mod 7 = if weekday d =? 0 then 0 else 7 - weekday d).
    { destruct (Z.eqb_spec (weekday d) 0) as [->|Hne]; [reflexivity|].
      symmetry. apply (Z.mod_unique_pos _ _ (-1)); lia. }
    rewrite Hdays. destruct (Z.eqb_spec (weekday d) 0) as [->|Hne]; [done|].
    by destruct (Z.eqb_spec (7 - weekday d) 0); [lia|]. }
  unfold valid_date, MAXORDINAL in *.
  apply andb_true_iff in Hvalid as [Hlo%Z.leb_le Hhi%Z.leb_le].
  pose proof (weekday_range today) as Hr.
  assert (Hmon : (toordinal today + (7 - weekday today) + 6) mod 7 = 0).
  { unfold weekday in *.
    pose proof (Z.div_mod (toordinal today + 6) 7 ltac:(lia)) as Ho.
    apply Z.mod_divide; [lia|]. exists ((toordinal today + 6) / 7 + 1). lia. }
  apply Z.mod_divide in Hmon as [k Hk]; [|lia].
  split; [|split].
  - intros Hfit. rewrite Hform. unfold date_add_days, MAXORDINAL.
    replace (0 <? _) with true by (symmetry; apply Z.ltb_lt; lia).
    replace (_ <=? 3652059) with true by (symmetry; apply Z.leb_le; lia).
    cbn. do 2 f_equal. lia.
  - intros Hpast. rewrite Hform. unfold date_add_days, MAXORDINAL.
    replace (_ <=? 3652059) with false by (symmetry; apply Z.leb_gt; lia).
    by rewrite andb_false_r.
  - intros other monday. rewrite !Hform. unfold date_add_days.
    intros Hm Hweek.
    by replace (toordinal other + (7 - weekday other))
      with (toordinal today + (7 - weekday today)) by lia.
Qed.

Lemma get_next_monday_date_closed_form_witness :
  (toordinal (Date 740002) <= MAXORDINAL - 5 →
   get_next_monday_date (Date 740002)
   = Ok (Date (toordinal (Date 740002) + 7 - weekday (Date 740002))))
  ∧ (MAXORDINAL - 5 < toordinal (Date 740002) →
     get_next_monday_date (Date 740002) = Raise (OverflowError "date value out of range"))
  ∧ ∀ other monday,
      get_next_monday_date (Date 740002) = Ok monday →
      toordinal (Date 740002) - weekday (Date 740002) = toordinal other - weekday other →
      get_next_monday_date other = Ok monday.
Proof.
  apply (get_next_monday_date_closed_form (Date 740002)). reflexivity.
Defined.

(** ** More on the history log *)

(** The column test guards the selection: [df[key]] raises no [KeyError]
    for a label that is among the columns. *)
Lemma df_getitem_Ok (df : DataFrame) (key : string) :
  key ∈ df_columns df → ∃ sel, df_getitem df key = Ok sel.
Proof.
  intros [i Hi]%list_elem_of_lookup_1. unfold df_getitem.
  assert (Hmem : i ∈ label_positions key (df_columns df) 0).
  { apply label_positions_spec. rewrite Nat.sub_0_r. split; [lia|done]. }
  destruct (label_positions key (df_columns df) 0) as [|a [|b rest]]; eauto.
  by apply elem_of_nil in Hmem.
Qed.

Lemma pd_DataFrame_raises (data : list (list string)) (columns : list string) (e : exn) :
  pd_DataFrame data columns = Raise e →
  data ≠ [] ∧ length columns ≠ max_list (length <$> data)
  ∧ e = ValueError (pretty (length columns) +:+ " columns passed, passed data had "
                    +:+ pretty (max_list (length <$> data)) +:+ " columns").
Proof.
  unfold pd_DataFrame. destruct data as [|d ds] eqn:Hd; [done|]. rewrite <- Hd.
  case_bool_decide as Hw; [done|]. intros [= <-].
  split; [by rewrite Hd|done].
Qed.

(** X10.  A log whose widest data row and header differ in width cannot be
    made a frame: [fetch_history_place_ids] raises a [ValueError] that
    names the two widths, whatever the header holds.  It raises nothing
    else: every exception of the function is such a [ValueError]. *)
Theorem fetch_history_place_ids_raises (header : list string) (data : list (list string)) :
  (data ≠ [] → length header ≠ max_list (length <$> data) →
   fetch_history_place_ids (Some (header :: data))
   = Raise (ValueError (pretty (length header) +:+ " columns passed, passed data had "
                        +:+ pretty (max_list (length <$> data)) +:+ " columns")))
  ∧ ∀ values e,
      fetch_history_place_ids values = Raise e →
      ∃ header data,
        values = Some (header :: data) ∧ data ≠ []
        ∧ length header ≠ max_list (length <$> data)
        ∧ e = ValueError (pretty (length header) +:+ " columns passed, passed data had "
                          +:+ pretty (max_list (length <$> data)) +:+ " columns").
Proof.
  split.
  - intros Hdata Hwidth. rewrite fetch_history_place_ids_rows. unfold pd_DataFrame.
    destruct data as [|d ds] eqn:Hd; [done|]. rewrite <- Hd in *.
    by rewrite bool_decide_eq_false_2.
  - intros [[|h d]|] e; [done| |done]. rewrite fetch_history_place_ids_rows.
    destruct (pd_DataFrame d h) as [df|e'] eqn:Hdf; cbn [mbind result_bind].
    + case_bool_decide as Hcol; cbn [negb]; [|done].
      by destruct (df_getitem_Ok df _ Hcol) as [sel ->].
    + intros [= <-]. apply pd_DataFrame_raises in Hdf as (? & ? & ->).
      by exists h, d.
Qed.

Lemma fetch_history_place_ids_raises_witness :
  fetch_history_place_ids (Some (["Timestamp"; "Google Place ID"] :: [["2027-01-11"]]))
  = Raise (ValueError "2 columns passed, passed data had 1 columns").
Proof.
  apply (proj1 (fetch_history_place_ids_raises ["Timestamp"; "Google Place ID"]
                  [["2027-01-11"]])).
  - discriminate.
  - cbn. lia.
Defined.

(** X11.  When the header names the column [Google Place ID] more than
    once, [df[...]] is a frame, not a column, and the set built from it
    holds the column label instead of the identifiers of the log: the
    function returns the one-element set of that label, whatever the data
    rows hold (given the frame can be built). *)
Theorem fetch_history_place_ids_repeated_label (header : list string)
    (data : list (list string)) (i j : nat) :
  data = [] ∨ max_list (length <$> data) = length header →
  header !! i = Some HISTORY_ID_COLUMN →
  header !! j = Some HISTORY_ID_COLUMN →
  i ≠ j →
  fetch_history_place_ids (Some (header :: data)) = Ok {[ HISTORY_ID_COLUMN ]}.
Proof.
  intros Hrect Hi Hj Hne.
  destruct (pd_DataFrame_rectangular data header Hrect) as (rows & Hdf & _).
  rewrite fetch_history_place_ids_rows, Hdf. cbn [mbind result_bind df_columns].
  rewrite bool_decide_eq_true_2 by by eapply list_elem_of_lookup_2.
  cbn [negb]. unfold df_getitem. cbn [df_columns df_data].
  assert (Hmem : ∀ k, header !! k = Some HISTORY_ID_COLUMN →
            k ∈ label_positions HISTORY_ID_COLUMN header 0).
  { intros k Hk. apply label_positions_spec. rewrite Nat.sub_0_r. split; [lia|done]. }
  pose proof (Hmem i Hi) as Hmi. pose proof (Hmem j Hj) as Hmj.
  destruct (label_positions HISTORY_ID_COLUMN header 0) as [|a [|b rest]] eqn:Hpos.
  - by apply elem_of_nil in Hmi.
  - apply list_elem_of_singleton in Hmi, Hmj. congruence.
  - cbn [mbind result_bind]. f_equal. unfold astype_str, dropna, py_set.
    cbn [df_columns]. apply set_eq. intros s.
    rewrite elem_of_list_to_set, list_elem_of_fmap, elem_of_singleton. split.
    + by intros (k & -> & _).
    + intros ->. exists a. split; [done|]. by left.
Qed.

Lemma fetch_history_place_ids_repeated_label_witness :
  fetch_history_place_ids
    (Some (["Google Place ID"; "Google Place ID"] :: [["ChIJseen"; "ChIJthai"]]))
  = Ok {[ HISTORY_ID_COLUMN ]}.
Proof.
  apply (fetch_history_place_ids_repeated_label ["Google Place ID"; "Google Place ID"]
           [["ChIJseen"; "ChIJthai"]] 0 1).
  - right. reflexivity.
  - reflexivity.
  - reflexivity.
  - lia.
Defined.

Lemma max_list_Permutation (l1 l2 : list nat) :
  l1 ≡ₚ l2 → max_list l1 = max_list l2.
Proof.
  induction 1 as [|x l1 l2 _ IH|x y l|l1 l2 l3 _ IH1 _ IH2]; cbn; lia.
Qed.

(** X12.  The order of the data rows of the log does not matter:
    reordering them changes neither the set returned nor the exception
    raised. *)
Theorem fetch_history_place_ids_row_order (header : list string)
    (data data' : list (list string)) :
  data ≡ₚ data' →
  fetch_history_place_ids (Some (header :: data))
  = fetch_history_place_ids (Some (header :: data')).
Proof.
  intros Hperm. rewrite !fetch_history_place_ids_rows.
  assert (Hw : max_list (length <$> data) = max_list (length <$> data'))
    by by apply max_list_Permutation, fmap_Permutation.
  unfold pd_DataFrame. destruct data as [|d ds] eqn:Hd.
  { apply Permutation_nil_l in Hperm. by subst. }
  destruct data' as [|d' ds'] eqn:Hd'.
  { by apply Permutation_nil_r in Hperm. }
  rewrite <- Hd, <- Hd' in *. rewrite <- Hw.
  case_bool_decide; [|done]. cbn [mbind result_bind df_columns].
  destruct (bool_decide _); cbn [negb]; [|done].
  unfold df_getitem. cbn [df_columns df_data].
  destruct (label_positions _ header 0) as [|i [|j rest]]; cbn [mbind result_bind]; [done| |done].
  f_equal. rewrite !py_set_dropna_series. apply list_to_set_perm_L.
  apply omap_Permutation. by do 2 apply fmap_Permutation.
Qed.

Lemma fetch_history_place_ids_row_order_witness :
  fetch_history_place_ids
    (Some (["Timestamp"; "Google Place ID"] :: [["t1"; "ChIJseen"]; ["t2"; "ChIJthai"]]))
  = fetch_history_place_ids
      (Some (["Timestamp"; "Google Place ID"] :: [["t2"; "ChIJthai"]; ["t1"; "ChIJseen"]])).
Proof.
  apply (fetch_history_place_ids_row_order ["Timestamp"; "Google Place ID"]).
  apply perm_swap.
Defined.

(** The identifiers of a log with one identifier column whose frame can
    be built. *)
Lemma fetch_history_place_ids_column (header : list string) (data : list (list string))
    (i : nat) :
  data = [] ∨ max_list (length <$> data) = length header →
  header !! i = Some HISTORY_ID_COLUMN →
  (∀ j, header !! j = Some HISTORY_ID_COLUMN → j = i) →
  fetch_history_place_ids (Some (header :: data))
  = Ok (list_to_set (omap (λ row : list string, row !! i) data)).
Proof.
  intros Hrect Hi Huniq.
  destruct (pd_DataFrame_rectangular data header Hrect) as (rows & Hdf & Hcells).
  rewrite fetch_history_place_ids_rows, Hdf. cbn [mbind result_bind df_columns].
  rewrite bool_decide_eq_true_2 by by eapply list_elem_of_lookup_2.
  cbn [negb]. unfold df_getitem. cbn [df_columns df_data].
  rewrite (label_positions_unique _ _ i Hi Huniq). cbn [mbind result_bind].
  by rewrite py_set_dropna_series, Hcells, omap_id_fmap.
Qed.

(** X13.  From one run to the next: the row [format_history_row] writes
    for a chosen place carries the place's identifier in its fifth field.
    When the log read by the next run holds that row with its fifth cell
    intact, under a header whose fifth and only [Google Place ID] column
    it is, and the widest data row of that log has as many cells as the
    header (so that the frame can be built and the read does not raise a
    [ValueError]), [fetch_history_place_ids] returns a set with the
    identifier in it, and [choose_place] never again returns a place with
    that identifier. *)
Theorem chosen_place_excluded_next_run (rt : runtime) (timestamp : datetime)
    (chosen : dict) (cuisine : string) (event_date : date) (row : list value)
    (s : string) (header cells : list string) (data : list (list string)) :
  format_history_row rt timestamp chosen cuisine event_date = Ok row →
  chosen !! "id" = Some (VStr s) →
  header !! 4%nat = Some HISTORY_ID_COLUMN →
  (∀ j, header !! j = Some HISTORY_ID_COLUMN → j = 4%nat) →
  (∀ c, row !! 4%nat = Some (VStr c) → cells !! 4%nat = Some c) →
  max_list (length <$> data ++ [cells]) = length header →
  row !! 4%nat = Some (VStr s)
  ∧ ∃ ids,
      fetch_history_place_ids (Some (header :: data ++ [cells])) = Ok ids
      ∧ s ∈ ids
      ∧ ∀ randbelow places p,
          p !! "id" = Some (VStr s) →
          choose_place randbelow places ids ≠ Ok (Some p).
Proof.
  intros Hrow Hid Hheader Huniq Hcells Hwidth.
  apply format_history_row_inv in Hrow as (name & _ & ->).
  assert (Hfifth : [VStr (datetime_isoformat rt timestamp);
                    VStr (date_isoformat event_date); VStr cuisine; name;
                    dict_get chosen "id" (VStr "");
                    VStr (py_str rt (dict_get chosen "rating" (VStr "")));
                    VStr (py_str rt (dict_get chosen "userRatingCount" (VStr "")));
                    VStr (py_str rt (dict_get chosen "priceLevel" (VStr "")));
                    dict_get chosen "formattedAddress" (VStr "");
                    dict_get chosen "googleMapsUri" (VStr "")] !! 4%nat
                   = Some (VStr s)).
  { cbn. by rewrite (dict_get_lookup _ _ _ _ Hid). }
  split; [done|]. eexists. split; [|split].
  - apply (fetch_history_place_ids_column header (data ++ [cells]) 4); auto.
  - apply elem_of_list_to_set, list_elem_of_omap. exists cells. split.
    + apply elem_of_app. right. by left.
    + by apply Hcells.
  - intros randbelow places p Hp [_ Hk]%choose_place_Some_keeps.
    apply choose_place_keeps_identifier in Hk as (v & Hv & _ & Hnot).
    rewrite Hp in Hv. injection Hv as <-. apply (Hnot s eq_refl).
    apply elem_of_list_to_set, list_elem_of_omap. exists cells. split.
    + apply elem_of_app. right. by left.
    + by apply Hcells.
Qed.

Lemma chosen_place_excluded_next_run_witness :
  ∃ ids,
    fetch_history_place_ids
      (Some (["Timestamp"; "Event Date"; "Cuisine"; "Restaurant"; "Google Place ID"]
             :: tail sample_log
                ++ [["2027-01-18T10:00:01-08:00"; "2027-01-25"; "Thai"; "Thai Garden";
                     "ChIJthai"]])) = Ok ids
    ∧ "ChIJthai" ∈ ids
    ∧ ∀ randbelow places p,
        p !! "id" = Some (VStr "ChIJthai") →
        choose_place randbelow places ids ≠ Ok (Some p).
Proof.
  refine (proj2 (chosen_place_excluded_next_run sample_runtime
            (DateTime (Date 739999) 10 0 1 0) thai_place "Thai" (Date 740006) _ "ChIJthai"
            ["Timestamp"; "Event Date"; "Cuisine"; "Restaurant"; "Google Place ID"]
            ["2027-01-18T10:00:01-08:00"; "2027-01-25"; "Thai"; "Thai Garden"; "ChIJthai"]
            (tail sample_log) _ _ _ _ _ _)).
  - reflexivity.
  - reflexivity.
  - reflexivity.
  - unfold HISTORY_ID_COLUMN. intros [|[|[|[|[|[|j]]]]]]; cbn; congruence.
  - cbn. by intros c [= <-].
  - reflexivity.
Defined.

(** ** More on the run of the handler *)

(** A request to append or to insert is sent only after every step before
    the append has returned; from there the run is the append, the
    calendar event, and a remainder that only shows the result. *)
Lemma roll_the_dice_commit (rt : runtime) (w : world) (c : call) :
  Called c ∈ (roll_the_dice rt w).1 →
  kind_of c = KSheetsAppend ∨ kind_of c = KCalendarInsert →
  ∃ cuisine monday history_ids places chosen row t1 t2 shows,
    random_choice (w_randbelow_cuisine w) CUISINES = Ok cuisine
    ∧ get_next_monday_date (dt_date (w_now_monday w)) = Ok monday
    ∧ build_google_clients rt w = Ok ()
    ∧ fetch_history w = (t1, Returned history_ids)
    ∧ search_places w cuisine = (t2, Returned places)
    ∧ choose_place (w_randbelow_place w) places history_ids = Ok (Some chosen)
    ∧ format_history_row rt (w_now_row w) chosen cuisine monday = Ok row
    ∧ follows [] shows
    ∧ roll_the_dice rt w
      = (t1 ++ t2 ++ (append_history_row w row;;
                      create_calendar_event rt w chosen monday;; shows).1,
         (append_history_row w row;;
          create_calendar_event rt w chosen monday;; shows).2).
Proof.
  intros Hin Hkind.
  assert (Hnot : ∀ {A} ks (m : script A), follows ks m →
            KSheetsAppend ∉ ks → KCalendarInsert ∉ ks → Called c ∉ m.1).
  { intros A ks m Hm H1 H2 Hc%(follows_called _ _ _ Hm).
    destruct Hkind as [Hk|Hk]; rewrite Hk in Hc; done. }
  assert (Hnil : Called c ∉ []) by apply not_elem_of_nil.
  destruct (roll_the_dice rt w) as [t o] eqn:Hrun. cbn [fst] in Hin.
  unfold roll_the_dice in Hrun.
  apply bind_lift_inv in Hrun as [(cuisine & Hc & Hrun) | (e & _ & -> & _)]; [|done].
  apply bind_lift_inv in Hrun as [(monday & Hm & Hrun) | (e & _ & -> & _)]; [|done].
  apply bind_lift_inv in Hrun as [([] & Hb & Hrun) | (e & _ & -> & _)]; [|done].
  pose proof (fetch_history_follows w) as Hff.
  assert (Hff' : Called c ∉ (fetch_history w).1).
  { apply (Hnot _ _ _ Hff); by intros [=]%list_elem_of_singleton. }
  apply script_bind_inv in Hrun
    as [(t1 & history_ids & t' & Hfetch & Hrun & ->) | [(e & Hfetch & ->) | (Hfetch & ->)]];
    rewrite Hfetch in Hff'; [|done..].
  apply elem_of_app in Hin as [Hin|Hin]; [done|].
  pose proof (search_places_follows w cuisine) as Hsf.
  assert (Hsf' : Called c ∉ (search_places w cuisine).1).
  { apply (Hnot _ _ _ Hsf); by intros [=]%list_elem_of_singleton. }
  apply script_bind_inv in Hrun
    as [(t2 & places & t'' & Hsearch & Hrun & ->) | [(e & Hsearch & ->) | (Hsearch & ->)]];
    rewrite Hsearch in Hsf'; [|done..].
  apply elem_of_app in Hin as [Hin|Hin]; [done|].
  apply bind_lift_inv in Hrun as [(chosen & Hch & Hrun) | (e & _ & -> & _)]; [|done].
  assert (Hstop : ∀ t3 o3, (emit (Shown (Warning NO_ELIGIBLE));; st_stop) = (t3, o3) →
            Called c ∉ t3).
  { intros t3 o3 [= <- _]. by intros [=]%list_elem_of_singleton. }
  destruct chosen as [chosen|]; [|by destruct (Hstop _ _ Hrun)].
  destruct (negb (truthy (VDict chosen))); [by destruct (Hstop _ _ Hrun)|].
  apply bind_lift_inv in Hrun as [(row & Hrow & Hrun) | (e & _ & -> & _)]; [|done].
  match type of Hrun with
  | append_history_row _ _ ≫= (λ _, create_calendar_event _ _ _ _ ≫= (λ _, ?k)) = _ =>
      exists cuisine, monday, history_ids, places, chosen, row, t1, t2, k;
      assert (Hk : follows [] k) by (cbv beta zeta; follows_tac)
  end.
  rewrite Hrun. by repeat (split; [done|]).
Qed.

Lemma append_history_row_cases (w : world) (row : list value) :
  (∃ e, st_secret w "SPREADSHEET_ID" = Raise e
        ∧ append_history_row w row = ([], Raised e))
  ∨ (∃ sid, st_secret w "SPREADSHEET_ID" = Ok sid
            ∧ append_history_row w row
              = ([Called (SheetsAppend sid row)],
                 match w_sheets_append w row with
                 | Ok u => Returned u
                 | Raise e => Raised e
                 end)).
Proof.
  unfold append_history_row.
  destruct (st_secret w "SPREADSHEET_ID") as [sid|e]; [right|left; by exists e].
  exists sid. split; [done|]. rewrite bind_lift_ok. cbn.
  by destruct (w_sheets_append w row).
Qed.

Lemma create_calendar_event_cases (rt : runtime) (w : world) (place : dict)
    (event_date : date) :
  (∃ e, create_calendar_event rt w place event_date = ([], Raised e)
        ∧ (st_secret w "CALENDAR_ID" = Raise e
           ∨ calendar_event rt place event_date = Raise e))
  ∨ (∃ cid event, st_secret w "CALENDAR_ID" = Ok cid
                  ∧ calendar_event rt place event_date = Ok event
                  ∧ create_calendar_event rt w place event_date
                    = ([Called (CalendarInsert cid event)],
                       match w_calendar_insert w event with
                       | Ok u => Returned u
                       | Raise e => Raised e
                       end)).
Proof.
  unfold create_calendar_event.
  destruct (st_secret w "CALENDAR_ID") as [cid|e]; [|left; exists e; by split; [|left]].
  rewrite bind_lift_ok.
  destruct (calendar_event rt place event_date) as [event|e];
    [|left; exists e; by split; [|right]].
  right. exists cid, event. split; [done|]. split; [done|].
  rewrite bind_lift_ok. cbn. by destruct (w_calendar_insert w event).
Qed.

Lemma follows_nil_no_call {A : Type} (m : script A) (c : call) :
  follows [] m → Called c ∉ m.1.
Proof. by intros Hm Hc%(follows_called _ _ _ Hm)%elem_of_nil. Qed.

Lemma app_trace (rt : runtime) (w : world) :
  w_button w = true →
  (app rt w).1 = Shown (Header "Weekly New Restaurant Night")
                 :: (handle_errors (roll_the_dice rt w)).1.
Proof. unfold app. intros ->. cbn. by destruct (handle_errors _). Qed.

Lemma app_called_button (rt : runtime) (w : world) (c : call) :
  Called c ∈ (app rt w).1 → w_button w = true.
Proof.
  unfold app. destruct (w_button w); [done|]. cbn.
  by intros [=]%list_elem_of_singleton.
Qed.

Lemma handle_errors_trace (body : script unit) :
  ∃ extra, (handle_errors body).1 = body.1 ++ extra ∧ call_kinds extra = [].
Proof.
  destruct body as [t [[]|e|]]; cbn [handle_errors fst].
  - exists []. by rewrite app_nil_r.
  - by eexists [_].
  - exists []. by rewrite app_nil_r.
Qed.

(** The requests of the last two steps, when the calendar is reached. *)
Lemma commit_inserted (rt : runtime) (w : world) (chosen : dict) (monday : date)
    (row : list value) (shows : script unit) (cid : secret) (event : dict) :
  follows [] shows →
  Called (CalendarInsert cid event)
  ∈ (append_history_row w row;; create_calendar_event rt w chosen monday;; shows).1 →
  ∃ sid rest,
    (append_history_row w row;; create_calendar_event rt w chosen monday;; shows).1
    = Called (SheetsAppend sid row) :: Called (CalendarInsert cid event) :: rest
    ∧ call_kinds rest = []
    ∧ w_sheets_append w row = Ok ()
    ∧ calendar_event rt chosen monday = Ok event.
Proof.
  intros Hshows.
  destruct (append_history_row_cases w row) as [(e & _ & Ha)|(sid & _ & Ha)].
  { rewrite Ha. cbn. by intros ?%elem_of_nil. }
  destruct (w_sheets_append w row) as [[]|e] eqn:Happ.
  2: { rewrite Ha. cbn. by intros [=]%list_elem_of_singleton. }
  rewrite (script_bind_returned _ _ _ _ Ha). cbn [fst].
  destruct (create_calendar_event_cases rt w chosen monday)
    as [(e & Hc & _)|(cid' & event' & _ & Hevent & Hc)].
  { rewrite Hc. cbn. by intros [=]%list_elem_of_singleton. }
  assert (Hrest : ∃ rest,
    (create_calendar_event rt w chosen monday;; shows).1
    = Called (CalendarInsert cid' event') :: rest ∧ call_kinds rest = []).
  { destruct (w_calendar_insert w event') as [[]|e].
    - rewrite (script_bind_returned _ _ _ _ Hc). cbn [fst app].
      exists shows.1. split; [done|]. destruct Hshows as (_ & Hp & _).
      by apply prefix_nil_inv in Hp.
    - rewrite Hc. by exists []. }
  destruct Hrest as (rest & -> & Hrest). cbn [app].
  intros [[=]|[[= <- <-]|Hin]%elem_of_cons]%elem_of_cons.
  - by exists sid, rest.
  - apply called_kind in Hin. rewrite Hrest in Hin. by apply elem_of_nil in Hin.
Qed.

(** X14.  The calendar event comes after the row: whenever a run asks the
    calendar to insert an event, it has, just before, asked the sheet to
    append the row, and that append has returned; the two follow the read
    of the log and the search, and nothing is sent after the insert.  So a
    failed append leaves no event behind, while a failed insert leaves
    the row in the log. *)
Theorem calendar_insert_follows_append (rt : runtime) (w : world) (cid : secret)
    (event : dict) :
  Called (CalendarInsert cid event) ∈ (app rt w).1 →
  ∃ sid row before after,
    (app rt w).1
    = before ++ Called (SheetsAppend sid row) :: Called (CalendarInsert cid event) :: after
    ∧ w_sheets_append w row = Ok ()
    ∧ call_kinds before = [KSheetsGet; KPlacesPost]
    ∧ call_kinds after = [].
Proof.
  intros Hin. pose proof (app_called_button _ _ _ Hin) as Hbutton.
  pose proof (app_called _ _ _ Hin) as Hroll.
  rewrite (app_trace _ _ Hbutton).
  destruct (handle_errors_trace (roll_the_dice rt w)) as (extra & -> & Hextra).
  pose proof Hroll as Hcommit.
  apply roll_the_dice_commit in Hcommit
    as (cuisine & monday & history_ids & places & chosen & row & t1 & t2 & shows
        & _ & _ & _ & Hfetch & Hsearch & _ & _ & Hshows & Hrun); [|by right].
  pose proof (fetch_history_follows w) as Hff.
  pose proof (search_places_follows w cuisine) as Hsf.
  rewrite Hfetch in Hff. rewrite Hsearch in Hsf.
  destruct Hff as (_ & _ & Hk1). destruct Hsf as (_ & _ & Hk2).
  specialize (Hk1 _ eq_refl). specialize (Hk2 _ eq_refl). cbn [fst] in Hk1, Hk2.
  rewrite Hrun in Hroll. rewrite Hrun. cbn [fst] in *.
  assert (Hin3 : Called (CalendarInsert cid event)
    ∈ (append_history_row w row;; create_calendar_event rt w chosen monday;; shows).1).
  { apply elem_of_app in Hroll as [Hc|Hc];
      [apply called_kind in Hc; rewrite Hk1 in Hc; by apply list_elem_of_singleton in Hc|].
    apply elem_of_app in Hc as [Hc|Hc]; [|done].
    apply called_kind in Hc. rewrite Hk2 in Hc. by apply list_elem_of_singleton in Hc. }
  apply (commit_inserted _ _ _ _ _ _ _ _ Hshows) in Hin3
    as (sid & rest & -> & Hrest & Happ & _).
  exists sid, row, (Shown (Header "Weekly New Restaurant Night") :: t1 ++ t2), (rest ++ extra).
  split; [|split; [done|split]].
  - cbn. by rewrite <- !app_assoc.
  - change (call_kinds (Shown (Header "Weekly New Restaurant Night") :: t1 ++ t2))
      with (call_kinds (t1 ++ t2)).
    by rewrite call_kinds_app, Hk1, Hk2.
  - by rewrite call_kinds_app, Hrest, Hextra.
Qed.

Lemma calendar_insert_follows_append_witness :
  ∃ sid row before after,
    (app sample_runtime (sample_world [thai_place])).1
    = before ++ Called (SheetsAppend sid row)
             :: Called (CalendarInsert (SecretStr "calendar") sample_event) :: after
    ∧ w_sheets_append (sample_world [thai_place]) row = Ok ()
    ∧ call_kinds before = [KSheetsGet; KPlacesPost]
    ∧ call_kinds after = [].
Proof.
  apply (calendar_insert_follows_append sample_runtime (sample_world [thai_place])
           (SecretStr "calendar") sample_event).
  do 4 apply list_elem_of_further. apply list_elem_of_here.
Defined.

Lemma bind_lift_raise {A B : Type} (e : exn) (f : A → script B) :
  lift (Raise e) ≫= f = ([], Raised e).
Proof. reflexivity. Qed.

Lemma bind_emit {B : Type} (ev : event) (f : () → script B) :
  emit ev ≫= f = (ev :: (f ()).1, (f ()).2).
Proof. cbn. by destruct (f ()). Qed.

(** A chosen place is a dict that is not empty. *)
Lemma choose_place_truthy (randbelow : nat → nat) (places : list dict)
    (history_ids : gset string) (chosen : dict) :
  choose_place randbelow places history_ids = Ok (Some chosen) →
  truthy (VDict chosen) = true.
Proof.
  intros [_ Hk]%choose_place_Some_keeps.
  apply choose_place_keeps_identifier in Hk as (v & Hv & _).
  cbn. apply negb_true_iff, bool_decide_eq_false. intros ->.
  by rewrite lookup_empty in Hv.
Qed.

(** X15.  A run in which every step returns: the handler reads the log,
    searches, appends the row of the chosen place, inserts its event, and
    then shows the name of the place, cuisine and rating, the map link
    when the place has one, and the two success boxes; it shows no error
    and sends nothing else. *)
Theorem successful_run (rt : runtime) (w : world) (cuisine : string) (monday : date)
    (history_ids : gset string) (places : list dict) (chosen : dict)
    (row : list value) (t_log t_search : list event) (sid cid : secret) :
  random_choice (w_randbelow_cuisine w) CUISINES = Ok cuisine →
  get_next_monday_date (dt_date (w_now_monday w)) = Ok monday →
  build_google_clients rt w = Ok () →
  fetch_history w = (t_log, Returned history_ids) →
  search_places w cuisine = (t_search, Returned places) →
  choose_place (w_randbelow_place w) places history_ids = Ok (Some chosen) →
  format_history_row rt (w_now_row w) chosen cuisine monday = Ok row →
  st_secret w "SPREADSHEET_ID" = Ok sid →
  w_sheets_append w row = Ok () →
  st_secret w "CALENDAR_ID" = Ok cid →
  (∀ event, w_calendar_insert w event = Ok ()) →
  ∃ name event,
    get_place_name chosen = Ok name
    ∧ calendar_event rt chosen monday = Ok event
    ∧ handle_errors (roll_the_dice rt w)
      = (t_log ++ t_search
         ++ [Called (SheetsAppend sid row); Called (CalendarInsert cid event);
             Shown (Subheader name);
             Shown (WriteText (cuisine +:+ " | "
                               +:+ py_str rt (dict_get chosen "rating" (VStr "N/A"))
                               +:+ " ⭐"))]
         ++ (if truthy (dict_get chosen "googleMapsUri" VNone)
             then [Shown (Markdown ("[View on Google Maps]("
                                    +:+ py_str rt (dict_get chosen "googleMapsUri" VNone)
                                    +:+ ")"))]
             else [])
         ++ [Shown (Success "History Updated"); Shown (Success "Calendar Invite Sent")],
         Returned ()).
Proof.
  intros Hc Hm Hb Hf Hs Hch Hrow Hsid Happ Hcid Hins.
  pose proof (choose_place_truthy _ _ _ _ Hch) as Htruthy.
  pose proof Hrow as Hrow'.
  apply format_history_row_inv in Hrow' as (name & Hname & _).
  assert (Hevent : ∃ event, calendar_event rt chosen monday = Ok event).
  { unfold calendar_event. rewrite Hname. cbn. eauto. }
  destruct Hevent as [event Hevent]. exists name, event.
  split; [done|]. split; [done|].
  unfold roll_the_dice.
  rewrite Hc, bind_lift_ok, Hm, bind_lift_ok, Hb, bind_lift_ok.
  rewrite (script_bind_returned _ _ _ _ Hf).
  rewrite (script_bind_returned _ _ _ _ Hs).
  rewrite Hch, bind_lift_ok, Htruthy. cbn [negb].
  rewrite Hrow, bind_lift_ok.
  assert (Ha : append_history_row w row = ([Called (SheetsAppend sid row)], Returned ())).
  { destruct (append_history_row_cases w row) as [(e & He & _)|(sid' & Hsid' & ->)];
      [congruence|]. rewrite Happ. congruence. }
  assert (Hi : create_calendar_event rt w chosen monday
               = ([Called (CalendarInsert cid event)], Returned ())).
  { destruct (create_calendar_event_cases rt w chosen monday)
      as [(e & _ & [He|He])|(cid' & event' & Hcid' & Hevent' & ->)]; [congruence..|].
    rewrite Hins. congruence. }
  rewrite (script_bind_returned _ _ _ _ Ha), (script_bind_returned _ _ _ _ Hi).
  rewrite Hname, bind_lift_ok, !bind_emit.
  destruct (truthy (dict_get chosen "googleMapsUri" VNone)); cbn;
    by rewrite <- ?app_assoc.
Qed.

Lemma successful_run_witness :
  ∃ name event,
    get_place_name thai_place = Ok name
    ∧ calendar_event sample_runtime thai_place (Date 740006) = Ok event
    ∧ handle_errors (roll_the_dice sample_runtime (sample_world [thai_place]))
      = ([Called (SheetsGet (SecretStr "sheet"))]
         ++ [Called (PlacesPost (SecretStr "key") "Thai food near 92117")]
         ++ [Called (SheetsAppend (SecretStr "sheet") sample_row);
             Called (CalendarInsert (SecretStr "calendar") event);
             Shown (Subheader name);
             Shown (WriteText ("Thai" +:+ " | "
                               +:+ py_str sample_runtime
                                     (dict_get thai_place "rating" (VStr "N/A"))
                               +:+ " ⭐"))]
         ++ (if truthy (dict_get thai_place "googleMapsUri" VNone)
             then [Shown (Markdown ("[View on Google Maps]("
                                    +:+ py_str sample_runtime
                                          (dict_get thai_place "googleMapsUri" VNone)
                                    +:+ ")"))]
             else [])
         ++ [Shown (Success "History Updated"); Shown (Success "Calendar Invite Sent")],
         Returned ()).
Proof.
  apply (successful_run sample_runtime (sample_world [thai_place]) "Thai" (Date 740006)
           {["ChIJseen"]} [thai_place] thai_place sample_row);
    vm_compute; reflexivity.
Defined.

(** X16.  Without the secret [SPREADSHEET_ID] a run sends no request at
    all: the read of the log fails before it is sent, and nothing after
    it runs.  When the steps before the read return, the page shows the
    one error box with the text of the missing key. *)
Theorem missing_spreadsheet_id_sends_nothing (rt : runtime) (w : world) :
  w_secrets w !! "SPREADSHEET_ID" = None →
  call_kinds (app rt w).1 = []
  ∧ (w_button w = true →
     (∃ cuisine, random_choice (w_randbelow_cuisine w) CUISINES = Ok cuisine) →
     (∃ monday, get_next_monday_date (dt_date (w_now_monday w)) = Ok monday) →
     build_google_clients rt w = Ok () →
     app rt w
     = ([Shown (Header "Weekly New Restaurant Night");
         Shown (Error ("Something went wrong: "
                       +:+ w_missing_secret_text w "SPREADSHEET_ID"))],
        Returned ())).
Proof.
  intros Hmissing.
  assert (Hfetch : fetch_history w
            = ([], Raised (OtherException "KeyError"
                             (w_missing_secret_text w "SPREADSHEET_ID")))).
  { unfold fetch_history, st_secret. by rewrite Hmissing. }
  assert (Hroll : ∃ o, roll_the_dice rt w = ([], o)
            ∧ ((∃ cuisine, random_choice (w_randbelow_cuisine w) CUISINES = Ok cuisine) →
               (∃ monday, get_next_monday_date (dt_date (w_now_monday w)) = Ok monday) →
               build_google_clients rt w = Ok () →
               o = Raised (OtherException "KeyError"
                             (w_missing_secret_text w "SPREADSHEET_ID")))).
  { unfold roll_the_dice.
    destruct (random_choice _ CUISINES) as [cuisine|e];
      [rewrite bind_lift_ok|rewrite bind_lift_raise; eexists; split; [done|by intros [? [=]]]].
    destruct (get_next_monday_date _) as [monday|e];
      [rewrite bind_lift_ok|rewrite bind_lift_raise; eexists; split; [done|by intros _ [? [=]]]].
    destruct (build_google_clients rt w) as [[]|e];
      [rewrite bind_lift_ok|rewrite bind_lift_raise; eexists; split; [done|by intros _ _ [=]]].
    rewrite Hfetch. eexists. split; [reflexivity|done]. }
  destruct Hroll as (o & Hroll & Ho). unfold app. rewrite Hroll.
  destruct (w_button w); [|done]. split.
  - by destruct o as [[]|e|].
  - intros _ H1 H2 H3. by rewrite (Ho H1 H2 H3).
Qed.

Lemma missing_spreadsheet_id_sends_nothing_witness :
  call_kinds (app sample_runtime
                {| w_button := true;
                   w_secrets := delete "SPREADSHEET_ID" sample_secrets;
                   w_missing_secret_text := λ key, key;
                   w_randbelow_cuisine := λ _, 6%nat;
                   w_randbelow_place := λ _, 0%nat;
                   w_now_monday := DateTime (Date 739999) 10 0 0 0;
                   w_now_row := DateTime (Date 739999) 10 0 1 0;
                   w_google_clients := λ _, Ok ();
                   w_sheets_get := Ok (Some sample_log);
                   w_places_post := λ _, Ok (HttpResponse 200 "OK" (Ok (Some [thai_place])));
                   w_sheets_append := λ _, Ok ();
                   w_calendar_insert := λ _, Ok () |}).1 = [].
Proof.
  apply missing_spreadsheet_id_sends_nothing. reflexivity.
Defined.

(** X17.  An HTTP error of the places service, seen from the page: when
    the steps before the search return and the service answers with a
    status from 400 to 599, the run ends after the read of the log and the
    one search request with the box [Places API error: <message>], where
    the message is the one [raise_for_status] made; no row is appended
    and no event is inserted. *)
Theorem places_http_error_run (rt : runtime) (w : world) (cuisine : string)
    (monday : date) (history_ids : gset string) (t_log : list event)
    (api_key : secret) (response : http_response) :
  random_choice (w_randbelow_cuisine w) CUISINES = Ok cuisine →
  get_next_monday_date (dt_date (w_now_monday w)) = Ok monday →
  build_google_clients rt w = Ok () →
  fetch_history w = (t_log, Returned history_ids) →
  st_secret w "Maps_API_KEY" = Ok api_key →
  w_places_post w (cuisine +:+ " food near 92117") = Ok response →
  400 <= status_code response < 600 →
  ∃ msg,
    raise_for_status response = Raise (HTTPError msg)
    ∧ handle_errors (roll_the_dice rt w)
      = (t_log ++ [Called (PlacesPost api_key (cuisine +:+ " food near 92117"));
                   Shown (Error ("Places API error: " +:+ msg))],
         Returned ())
    ∧ call_kinds (handle_errors (roll_the_dice rt w)).1 = [KSheetsGet; KPlacesPost].
Proof.
  intros Hc Hm Hb Hf Hk Hp Hs.
  destruct (raise_for_status_error response Hs) as [msg Hmsg]. exists msg.
  split; [done|].
  assert (Hsearch : search_places w cuisine
            = ([Called (PlacesPost api_key (cuisine +:+ " food near 92117"))],
               Raised (HTTPError msg))).
  { unfold search_places. rewrite Hk, bind_lift_ok, bind_emit, Hp, bind_lift_ok, Hmsg.
    done. }
  assert (Hrun : handle_errors (roll_the_dice rt w)
            = (t_log ++ [Called (PlacesPost api_key (cuisine +:+ " food near 92117"));
                         Shown (Error ("Places API error: " +:+ msg))],
               Returned ())).
  { unfold roll_the_dice.
    rewrite Hc, bind_lift_ok, Hm, bind_lift_ok, Hb, bind_lift_ok.
    rewrite (script_bind_returned _ _ _ _ Hf), Hsearch. cbn.
    by rewrite <- app_assoc. }
  split; [done|]. rewrite Hrun. cbn [fst].
  apply fetch_history_returned in Hf as (sid & ? & _ & -> & _). done.
Qed.

Lemma places_http_error_run_witness :
  ∃ msg,
    raise_for_status (HttpResponse 403 "Forbidden" (Ok None)) = Raise (HTTPError msg)
    ∧ handle_errors (roll_the_dice sample_runtime forbidden_world)
      = ([Called (SheetsGet (SecretStr "sheet"))]
         ++ [Called (PlacesPost (SecretStr "key") ("Thai" +:+ " food near 92117"));
             Shown (Error ("Places API error: " +:+ msg))],
         Returned ())
    ∧ call_kinds (handle_errors (roll_the_dice sample_runtime forbidden_world)).1
      = [KSheetsGet; KPlacesPost].
Proof.
  apply (places_http_error_run sample_runtime forbidden_world "Thai" (Date 740006)
           {["ChIJseen"]} [Called (SheetsGet (SecretStr "sheet"))] (SecretStr "key")
           (HttpResponse 403 "Forbidden" (Ok None)));
    try (vm_compute; reflexivity).
  cbn. lia.
Defined.

Lemma search_places_called (w : world) (cuisine : string) (key : secret) (q : string) :
  Called (PlacesPost key q) ∈ (search_places w cuisine).1 →
  q = cuisine +:+ " food near 92117" ∧ st_secret w "Maps_API_KEY" = Ok key.
Proof.
  unfold search_places.
  destruct (st_secret w "Maps_API_KEY") as [key'|e];
    [rewrite bind_lift_ok, bind_emit|by intros ?%elem_of_nil].
  cbn [fst]. intros [[= <- <-]|Hin]%elem_of_cons; [done|].
  exfalso. revert Hin. apply follows_nil_no_call. follows_tac.
Qed.

(** X18.  The text of every search is made of one of the twenty cuisines
    of [CUISINES]: a search request carries the query
    [<cuisine> food near 92117] for a member of the list, and the API key
    of the secrets. *)
Theorem search_query_of_cuisine (rt : runtime) (w : world) (key : secret) (q : string) :
  Called (PlacesPost key q) ∈ (app rt w).1 →
  ∃ cuisine,
    cuisine ∈ CUISINES
    ∧ random_choice (w_randbelow_cuisine w) CUISINES = Ok cuisine
    ∧ q = cuisine +:+ " food near 92117"
    ∧ st_secret w "Maps_API_KEY" = Ok key.
Proof.
  intros Hin%app_called.
  destruct (roll_the_dice rt w) as [t o] eqn:Hrun. cbn [fst] in Hin.
  unfold roll_the_dice in Hrun.
  apply bind_lift_inv in Hrun as [(cuisine & Hc & Hrun) | (e & _ & -> & _)];
    [|by apply elem_of_nil in Hin].
  apply bind_lift_inv in Hrun as [(monday & Hm & Hrun) | (e & _ & -> & _)];
    [|by apply elem_of_nil in Hin].
  apply bind_lift_inv in Hrun as [([] & Hb & Hrun) | (e & _ & -> & _)];
    [|by apply elem_of_nil in Hin].
  pose proof (fetch_history_follows w) as Hff.
  assert (Hin2 : Called (PlacesPost key q) ∈ (search_places w cuisine).1).
  { apply script_bind_inv in Hrun
      as [(t1 & history_ids & t' & Hfetch & Hrun & ->) | [(e & Hfetch & ->) | (Hfetch & ->)]];
      rewrite Hfetch in Hff.
    2,3: by apply (follows_called _ _ _ Hff), list_elem_of_singleton in Hin.
    apply elem_of_app in Hin as [Hin|Hin];
      [by apply (follows_called _ _ _ Hff), list_elem_of_singleton in Hin|].
    apply script_bind_inv in Hrun
      as [(t2 & places & t'' & Hsearch & Hrun & ->) | [(e & Hsearch & ->) | (Hsearch & ->)]];
      rewrite Hsearch; cbn [fst]; [|done..].
    apply elem_of_app in Hin as [Hin|Hin]; [done|]. exfalso.
    match type of Hrun with
    | ?rest = _ =>
        assert (Hrest : follows [KSheetsAppend; KCalendarInsert] rest)
          by (cbv beta zeta; follows_tac);
        rewrite Hrun in Hrest
    end.
    apply (follows_called _ _ _ Hrest) in Hin.
    by repeat (apply elem_of_cons in Hin as [[=]|Hin]); apply elem_of_nil in Hin. }
  apply search_places_called in Hin2 as [-> Hkey].
  exists cuisine. split; [by eapply random_choice_elem|done].
Qed.

Lemma search_query_of_cuisine_witness :
  ∃ cuisine,
    cuisine ∈ CUISINES
    ∧ random_choice (w_randbelow_cuisine (sample_world [thai_place])) CUISINES = Ok cuisine
    ∧ "Thai food near 92117" = cuisine +:+ " food near 92117"
    ∧ st_secret (sample_world [thai_place]) "Maps_API_KEY" = Ok (SecretStr "key").
Proof.
  apply (search_query_of_cuisine sample_runtime (sample_world [thai_place])
           (SecretStr "key") "Thai food near 92117").
  do 2 apply list_elem_of_further. apply list_elem_of_here.
Defined.

(** X19.  The dinner is on a Monday to come: the event date written in the
    second field of every appended row, and the date of every calendar
    event inserted, is the Monday [get_next_monday_date] computed from the
    clock, which is a Monday one to seven days after the current date. *)
Theorem event_date_is_next_monday (rt : runtime) (w : world) :
  (∀ sid row,
      Called (SheetsAppend sid row) ∈ (app rt w).1 →
      ∃ monday,
        get_next_monday_date (dt_date (w_now_monday w)) = Ok monday
        ∧ weekday monday = 0
        ∧ 1 <= toordinal monday - toordinal (dt_date (w_now_monday w)) <= 7
        ∧ row !! 1%nat = Some (VStr (date_isoformat monday)))
  ∧ (∀ cid event,
      Called (CalendarInsert cid event) ∈ (app rt w).1 →
      ∃ monday chosen,
        get_next_monday_date (dt_date (w_now_monday w)) = Ok monday
        ∧ weekday monday = 0
        ∧ 1 <= toordinal monday - toordinal (dt_date (w_now_monday w)) <= 7
        ∧ calendar_event rt chosen monday = Ok event).
Proof.
  assert (Hmonday : ∀ monday,
            get_next_monday_date (dt_date (w_now_monday w)) = Ok monday →
            weekday monday = 0
            ∧ 1 <= toordinal monday - toordinal (dt_date (w_now_monday w)) <= 7).
  { intros monday (Hord & Hw & _)%get_next_monday_date_Ok.
    pose proof (weekday_range (dt_date (w_now_monday w))). split; [done|lia]. }
  split.
  - intros sid row Hin%app_called.
    apply roll_the_dice_appended in Hin
      as (cuisine & monday & history_ids & places & chosen & t1 & t2
          & _ & Hm & _ & _ & _ & _ & Hrow & _).
    exists monday. destruct (Hmonday _ Hm) as [Hw Hd].
    apply format_history_row_inv in Hrow as (name & _ & ->). done.
  - intros cid event Hin%app_called. pose proof Hin as Hcommit.
    apply roll_the_dice_commit in Hcommit
      as (cuisine & monday & history_ids & places & chosen & row & t1 & t2 & shows
          & _ & Hm & _ & Hfetch & Hsearch & _ & _ & Hshows & Hrun); [|by right].
    exists monday, chosen. destruct (Hmonday _ Hm) as [Hw Hd].
    split; [done|]. split; [done|]. split; [done|].
    pose proof (fetch_history_follows w) as Hff.
    pose proof (search_places_follows w cuisine) as Hsf.
    rewrite Hfetch in Hff. rewrite Hsearch in Hsf. rewrite Hrun in Hin. cbn [fst] in Hin.
    apply elem_of_app in Hin as [Hin|Hin];
      [by apply (follows_called _ _ _ Hff), list_elem_of_singleton in Hin|].
    apply elem_of_app in Hin as [Hin|Hin];
      [by apply (follows_called _ _ _ Hsf), list_elem_of_singleton in Hin|].
    by apply (commit_inserted _ _ _ _ _ _ _ _ Hshows) in Hin as (? & ? & _ & _ & _ & ?).
Qed.

Lemma event_date_is_next_monday_witness :
  ∃ monday,
    get_next_monday_date (dt_date (w_now_monday (sample_world [thai_place]))) = Ok monday
    ∧ weekday monday = 0
    ∧ 1 <= toordinal monday
           - toordinal (dt_date (w_now_monday (sample_world [thai_place]))) <= 7
    ∧ sample_row !! 1%nat = Some (VStr (date_isoformat monday)).
Proof.
  apply (proj1 (event_date_is_next_monday sample_runtime (sample_world [thai_place]))
           (SecretStr "sheet") sample_row).
  do 3 apply list_elem_of_further. apply list_elem_of_here.
Defined.



(** X21.  The account information is taken from the secret
    [GOOGLE_SERVICE_ACCOUNT_JSON]: a table as it is, a string through
    [json.loads]; a missing secret is a [KeyError].  When loading it or
    building the clients fails, the run sends no request at all, and, the
    steps before having returned, shows the one error box for that
    exception. *)
Theorem build_google_clients_failure (rt : runtime) (w : world) :
  (w_secrets w !! "GOOGLE_SERVICE_ACCOUNT_JSON" = None →
   build_google_clients rt w
   = Raise (OtherException "KeyError"
              (w_missing_secret_text w "GOOGLE_SERVICE_ACCOUNT_JSON")))
  ∧ (∀ d, w_secrets w !! "GOOGLE_SERVICE_ACCOUNT_JSON" = Some (SecretTable d) →
          build_google_clients rt w = w_google_clients w (VDict d))
  ∧ (∀ s, w_secrets w !! "GOOGLE_SERVICE_ACCOUNT_JSON" = Some (SecretStr s) →
          build_google_clients rt w = info ← json_loads rt s; w_google_clients w info)
  ∧ ∀ e, build_google_clients rt w = Raise e →
      call_kinds (app rt w).1 = []
      ∧ (w_button w = true →
         (∃ cuisine, random_choice (w_randbelow_cuisine w) CUISINES = Ok cuisine) →
         (∃ monday, get_next_monday_date (dt_date (w_now_monday w)) = Ok monday) →
         app rt w
         = ([Shown (Header "Weekly New Restaurant Night");
             Shown (Error ((if is_http_error e then "Places API error: "
                            else "Something went wrong: ") +:+ exn_str e))],
            Returned ())).
Proof.
  unfold build_google_clients at 1 2 3. unfold load_service_account_info, st_secret.
  split; [by intros ->|]. split; [by intros d ->|]. split; [by intros s ->|].
  intros e Hb.
  assert (Hroll : ∃ o, roll_the_dice rt w = ([], o)
            ∧ ((∃ cuisine, random_choice (w_randbelow_cuisine w) CUISINES = Ok cuisine) →
               (∃ monday, get_next_monday_date (dt_date (w_now_monday w)) = Ok monday) →
               o = Raised e)).
  { unfold roll_the_dice.
    destruct (random_choice _ CUISINES) as [cuisine|e'];
      [rewrite bind_lift_ok|rewrite bind_lift_raise; eexists; split; [done|by intros [? [=]]]].
    destruct (get_next_monday_date _) as [monday|e'];
      [rewrite bind_lift_ok|rewrite bind_lift_raise; eexists; split; [done|by intros _ [? [=]]]].
    rewrite Hb, bind_lift_raise. eexists. split; [reflexivity|done]. }
  destruct Hroll as (o & Hroll & Ho). unfold app. rewrite Hroll.
  destruct (w_button w); [|done]. split.
  - by destruct o as [[]|e'|].
  - intros _ H1 H2. by rewrite (Ho H1 H2).
Qed.

Lemma build_google_clients_failure_witness :
  call_kinds (app sample_runtime
                {| w_button := true;
                   w_secrets := delete "GOOGLE_SERVICE_ACCOUNT_JSON" sample_secrets;
                   w_missing_secret_text := λ key, key;
                   w_randbelow_cuisine := λ _, 6%nat;
                   w_randbelow_place := λ _, 0%nat;
                   w_now_monday := DateTime (Date 739999) 10 0 0 0;
                   w_now_row := DateTime (Date 739999) 10 0 1 0;
                   w_google_clients := λ _, Ok ();
                   w_sheets_get := Ok (Some sample_log);
                   w_places_post := λ _, Ok (HttpResponse 200 "OK" (Ok (Some [thai_place])));
                   w_sheets_append := λ _, Ok ();
                   w_calendar_insert := λ _, Ok () |}).1 = [].
Proof.
  refine (proj1 (proj2 (proj2 (proj2 (build_google_clients_failure sample_runtime _)))
                   (OtherException "KeyError" "GOOGLE_SERVICE_ACCOUNT_JSON") _)).
  reflexivity.
Defined.
